(** * tello.py: the Tello drone example program, embedded and verified

    The program of [src/tello.py] is a Python script that talks to its
    surroundings only: it prints, spawns processes ([nmcli], [ffmpeg]),
    opens a UDP socket, sleeps and probes the file system.  The embedding
    keeps the control flow of the script and makes every such call an
    [event] of a trace; what the surroundings answer (process output,
    return codes, reply datagrams, existing files) is read from a [World].

    Text is represented by its UTF-8 bytes: a Python [str] and the [bytes]
    it encodes to are the same [string] here, so [encode_utf8] and
    [decode_utf8] are the identity.  Socket calls are taken to succeed. *)

From Stdlib Require Import ZArith Ascii.
From stdpp Require Import gmap strings list pretty.

Local Open Scope Z_scope.
Local Open Scope nat_scope.

(** ** Python string operations used by the script *)

Module Py.

Definition newline : ascii := "010"%char.
Definition colon : ascii := ":"%char.
(** The double quote character, as a one-character string. *)
Definition dquote : string := String "034"%char EmptyString.

(** [s.split(sep)] for a one-character separator: never empty. *)
Fixpoint split (sep : ascii) (s : string) : list string :=
  match s with
  | EmptyString => [EmptyString]
  | String c s' =>
      if Ascii.eqb c sep then EmptyString :: split sep s'
      else match split sep s' with
           | [] => [String c EmptyString]
           | piece :: pieces => String c piece :: pieces
           end
  end.

(** [s.rstrip(c)] for a one-character set. *)
Fixpoint rstrip (c : ascii) (s : string) : string :=
  match s with
  | EmptyString => EmptyString
  | String a s' =>
      match rstrip c s' with
      | EmptyString => if Ascii.eqb a c then EmptyString
                       else String a EmptyString
      | r => String a r
      end
  end.

(** [needle in s]: substring test. *)
Fixpoint contains (needle s : string) : bool :=
  String.prefix needle s ||
  match s with
  | EmptyString => false
  | String _ s' => contains needle s'
  end.

(** [str(n)] for a non-negative integer: its decimal digits. *)
Definition str (n : nat) : string := pretty n.

Definition encode_utf8 (s : string) : string := s.
Definition decode_utf8 (b : string) : string := b.

End Py.

(** ** Events, worlds and the monad of the script *)

Inductive event : Type :=
| Print (line : string)
| Popen (pid : nat) (args : list string)
| Communicate (pid : nat) (input : option string)
| Wait (pid : nat)
| Socket
| Bind (host : string) (port : Z)
| SendTo (msg : string) (host : string) (port : Z)
| RecvFrom (bufsize : nat) (data : string)
| Sleep (secs : nat).

(** What the surroundings answer.  Every answer may depend on the events
    that happened so far. *)
Record World : Type := {
  installed : string → bool;          (* binaries found on PATH *)
  proc_stdout : list event → string;  (* bytes a process wrote to its pipe *)
  proc_returncode : list event → Z;   (* return code seen by [wait] *)
  files : gset string;                (* paths for which os.path.exists holds *)
  reply : list event → string         (* the datagram the drone answers with *)
}.

Inductive outcome (A : Type) : Type :=
| Ok (a : A)              (* normal completion *)
| Exit (code : Z)         (* sys.exit(code) *)
| Raise (exn : string)    (* an exception nobody catches *)
| OutOfFuel.              (* a loop of the model was cut short *)

Arguments Ok {A} a.
Arguments Exit {A} code.
Arguments Raise {A} exn.
Arguments OutOfFuel {A}.

(** A computation reads the trace so far and answers with an outcome and
    the events it added. *)
Definition M (A : Type) : Type := list event → outcome A * list event.

Global Instance M_ret : MRet M := λ A (a : A) _, (Ok a, []).

Global Instance M_bind : MBind M := λ A B (f : A → M B) (m : M A) h,
  match m h with
  | (Ok a, t1) => let '(r, t2) := f a (h ++ t1) in (r, t1 ++ t2)
  | (Exit c, t1) => (Exit c, t1)
  | (Raise e, t1) => (Raise e, t1)
  | (OutOfFuel, t1) => (OutOfFuel, t1)
  end.

Definition emit (e : event) : M unit := λ _, (Ok tt, [e]).
Definition history : M (list event) := λ h, (Ok h, []).
Definition sys_exit {A} (code : Z) : M A := λ _, (Exit code, []).
Definition raise {A} (exn : string) : M A := λ _, (Raise exn, []).
Definition out_of_fuel {A} : M A := λ _, (OutOfFuel, []).

(** [try: m except exn: handler] *)
Definition try_except {A} (m : M A) (exn : string) (handler : M A) : M A :=
  λ h,
  match m h with
  | (Raise e, t1) =>
      if bool_decide (e = exn)
      then let '(r, t2) := handler (h ++ t1) in (r, t1 ++ t2)
      else (Raise e, t1)
  | other => other
  end.

Definition is_popen (e : event) : bool :=
  match e with Popen _ _ => true | _ => false end.

(** The number of processes started so far. *)
Definition popen_count (h : list event) : nat :=
  length (filter (λ e, is_popen e = true) h).

Section Script.

Variable w : World.

Definition print (line : string) : M unit := emit (Print line).
Definition sleep (secs : nat) : M unit := emit (Sleep secs).

(** [subprocess.Popen(args, ...)]: the handle is the number of the call;
    a binary that is not installed raises [FileNotFoundError]. *)
Definition popen (args : list string) : M nat :=
  h ← history;
  let pid := popen_count h in
  emit (Popen pid args);;
  if installed w (default EmptyString (head args)) then mret pid
  else raise "FileNotFoundError".

(** [proc.communicate(input)]: feeds [input], waits for the exit and
    returns what the process wrote to its standard output. *)
Definition communicate (pid : nat) (input : option string) : M string :=
  emit (Communicate pid input);;
  h ← history;
  mret (proc_stdout w h).

(** [proc.wait(); proc.returncode] *)
Definition wait (pid : nat) : M Z :=
  emit (Wait pid);;
  h ← history;
  mret (proc_returncode w h).

Definition socket_socket : M unit := emit Socket.
Definition sock_bind (host : string) (port : Z) : M unit :=
  emit (Bind host port).
Definition sock_sendto (msg host : string) (port : Z) : M unit :=
  emit (SendTo msg host port).
(** [sock.recvfrom(bufsize)]: blocks for one datagram and keeps at most
    [bufsize] bytes of it. *)
Definition sock_recvfrom (bufsize : nat) : M string :=
  h ← history;
  let data := String.substring 0 bufsize (reply w h) in
  emit (RecvFrom bufsize data);;
  mret data.

Definition os_path_exists (path : string) : bool :=
  bool_decide (path ∈ files w).

(** [for x in xs: acc = body(acc, x)], with a body that may exit or raise. *)
Fixpoint for_each {A B} (xs : list A) (body : B → A → M B) (acc : B) : M B :=
  match xs with
  | [] => mret acc
  | x :: xs' => acc' ← body acc x; for_each xs' body acc'
  end.

(** [while running: body], cut off after [fuel] tests of the condition. *)
Fixpoint while {S} (fuel : nat) (cond : S → bool) (body : S → M S) (st : S)
  : M S :=
  match fuel with
  | 0 => out_of_fuel
  | S fuel' =>
      if cond st then st' ← body st; while fuel' cond body st'
      else mret st
  end.

(** [name, nuuid, typ, dev = net.split(':')] *)
Definition unpack4 (fields : list string)
  : M (string * string * string * string) :=
  match fields with
  | [name; nuuid; typ; dev] => mret (name, nuuid, typ, dev)
  | _ => raise "ValueError"
  end.

(** *** haveNmcli *)
Definition haveNmcli : M bool :=
  try_except
    (netProc ← popen ["nmcli"];
     communicate netProc None;;
     mret true)
    "FileNotFoundError"
    (mret false).

(** *** getWifiUUID *)
Definition getWifiUUID_body (uuid : option string) (net : string)
  : M (option string) :=
  '(name, nuuid, typ, dev) ← unpack4 (Py.split Py.colon net);
  if Py.contains "TELLO" name then
    match uuid with
    | Some _ =>
        print "Multiple Tello WiFi networks found";;
        sys_exit (-1)%Z
    | None => mret (Some nuuid)
    end
  else mret uuid.

Definition getWifiUUID : M string :=
  netProc ← popen ["nmcli"; "-t"; "con"];
  out ← communicate netProc None;
  let nets := Py.rstrip Py.newline (Py.decode_utf8 out) in
  uuid ← for_each (Py.split Py.newline nets) getWifiUUID_body None;
  match uuid with
  | None =>
      print "No Tello WiFi network found";;
      sys_exit (-1)%Z
  | Some uuid => mret uuid
  end.

(** *** isConnected *)
Definition isConnected_body (uuid : string) (connected : bool) (net : string)
  : M bool :=
  '(name, nuuid, typ, dev) ← unpack4 (Py.split Py.colon net);
  if bool_decide (uuid = nuuid) && bool_decide (0 < String.length dev) then
    print ("Connected to " +:+ Py.dquote +:+ name +:+ Py.dquote);;
    mret true
  else mret connected.

Definition isConnected (uuid : string) : M bool :=
  netProc ← popen ["nmcli"; "-t"; "con"];
  out ← communicate netProc None;
  let nets := Py.rstrip Py.newline (Py.decode_utf8 out) in
  for_each (Py.split Py.newline nets) (isConnected_body uuid) false.

(** *** main: the network-association step (lines 72-97) *)
Definition use_nmcli (disableNm simulate : bool) : M bool :=
  if disableNm || simulate then mret false
  else
    found ← haveNmcli;
    if found : bool then mret true
    else
      print ("Cannot find " +:+ Py.dquote +:+ "nmcli" +:+ Py.dquote
             +:+ " to control NetworkManager");;
      sys_exit (-1)%Z.

Definition associate : M unit :=
  TELLO_WIFI_UUID ← getWifiUUID;
  print ("Drone WiFi: " +:+ TELLO_WIFI_UUID);;
  connected ← isConnected TELLO_WIFI_UUID;
  if connected : bool then print "Already connected to drone"
  else
    print "Connecting to Drone...";;
    nm ← popen ["nmcli"; "con"; "up"; TELLO_WIFI_UUID];
    returncode ← wait nm;
    if bool_decide (returncode = 0%Z) then print "  Connected"
    else
      print "  FAILED";;
      sys_exit (-1)%Z.

(** *** main: the output name (lines 112-118) *)
Definition vidFnamePrefix : string := "output".

Definition vidFname_of (vidFnameCount : nat) : string :=
  vidFnamePrefix +:+ Py.str vidFnameCount +:+ ".h264".

Definition reserve_count (fuel : nat) : M nat :=
  while fuel
    (λ vidFnameCount, os_path_exists (vidFname_of vidFnameCount))
    (λ vidFnameCount, mret (S vidFnameCount))
    1.

Definition reserve_name (fuel : nat) : M string :=
  vidFnameCount ← reserve_count fuel;
  mret (vidFnamePrefix +:+ Py.str vidFnameCount +:+ ".h264").

(** *** main: the command loop (lines 120-151) *)
Record loop_state : Type := {
  running : bool;
  pendingCommands : list string;
  vidProc : option nat
}.

Definition tello_address : string * Z := ("192.168.10.1", 8889%Z).

Definition ffmpeg_args (vidFname : string) : list string :=
  ["ffmpeg"; "-v"; "-8"; "-i"; "udp://@:11111";
   "-vcodec"; "copy"; "-acodec"; "none"; vidFname].

Definition loop_body (simulate : bool) (vidFname : string) (st : loop_state)
  : M loop_state :=
  if bool_decide (0 < length (pendingCommands st)) then
    match pendingCommands st !! 0 with
    | None => raise "IndexError"
    | Some cmd =>
        let popped := delete 0 (pendingCommands st) in
        print ("CMD : " +:+ cmd);;
        resp ← (if negb simulate then
                  let msg := Py.encode_utf8 cmd in
                  sock_sendto msg tello_address.1 tello_address.2;;
                  data ← sock_recvfrom 1518;
                  mret (Py.decode_utf8 data)
                else mret "sim ok");
        print ("RESP: " +:+ resp);;
        if bool_decide (cmd = "streamon") && negb simulate then
          sleep 5;;
          proc ← popen (ffmpeg_args vidFname);
          mret {| running := running st; pendingCommands := popped;
                  vidProc := Some proc |}
        else
          mret {| running := running st; pendingCommands := popped;
                  vidProc := vidProc st |}
    end
  else
    mret {| running := false; pendingCommands := pendingCommands st;
            vidProc := vidProc st |}.

Definition command_loop (fuel : nat) (simulate : bool) (vidFname : string)
    (commands : list string) : M loop_state :=
  while fuel running (loop_body simulate vidFname)
    {| running := true; pendingCommands := commands; vidProc := None |}.

(** *** main: closing the video stream (lines 153-157) *)
Definition close_video (vidProc : option nat) : M unit :=
  match vidProc with
  | Some proc =>
      sleep 2;;
      print "Closing video stream";;
      communicate proc (Some (Py.encode_utf8 "q"));;
      mret tt
  | None => mret tt
  end.

(** *** main, in two halves: what comes before the socket (lines 70-97)
    and what comes from the socket on (lines 99-157) *)
Definition prelude (disableNm simulate : bool) : M unit :=
  print "Tello Test Program";;
  useNmcli ← use_nmcli disableNm simulate;
  if useNmcli : bool then associate else mret tt.

Definition open_socket (simulate : bool) : M unit :=
  if negb simulate then
    socket_socket;;
    sock_bind "" 9000%Z
  else mret tt.

Definition session (fuel : nat) (commandSequence : list string)
    (simulate : bool) : M unit :=
  open_socket simulate;;
  vidFname ← reserve_name fuel;
  st ← command_loop fuel simulate vidFname commandSequence;
  close_video (vidProc st).

Definition main (fuel : nat) (commandSequence : list string)
    (disableNm simulate : bool) : M unit :=
  prelude disableNm simulate;;
  session fuel commandSequence simulate.

End Script.

(** The command sequence of the script (lines 11-22). *)
Definition commandSequence : list string :=
  ["command"; "streamon"; "battery?"; "speed?"; "takeoff";
   "flip f"; "cw 180"; "forward 50"; "cw 180"; "land"].

(** Running a computation from the empty trace. *)
Definition run {A} (m : M A) : outcome A * list event := m [].

(** * Vocabulary of the statements *)

(** [only P Q m]: whatever the trace so far, [m] adds events in [P] only,
    and a value it ends normally with is in [Q]. *)
Definition only {A} (P : event → Prop) (Q : A → Prop) (m : M A) : Prop :=
  ∀ h, Forall P (m h).2 ∧ ∀ a, (m h).1 = Ok a → Q a.

(** [count] is the lowest counter from [from] on whose name is unused. *)
Definition first_free (w : World) (from count : nat) : Prop :=
  from ≤ count ∧ (vidFname_of count ∉ files w) ∧
  (∀ m, from ≤ m < count → vidFname_of m ∈ files w).

(** The four events of one command in live mode. *)
Definition exchange (cmd data : string) : list event :=
  [Print ("CMD : " +:+ cmd); SendTo cmd "192.168.10.1" 8889%Z;
   RecvFrom 1518 data; Print ("RESP: " +:+ data)].

(** What one command adds to the trace in live mode. *)
Inductive live_block (vidFname : string) : string → list event → Prop :=
| live_plain cmd data :
    cmd ≠ "streamon" → live_block vidFname cmd (exchange cmd data)
| live_streamon data pid :
    live_block vidFname "streamon"
      (exchange "streamon" data ++ [Sleep 5; Popen pid (ffmpeg_args vidFname)]).

(** The two events of one command in simulate mode. *)
Definition sim_block (cmd : string) : list event :=
  [Print ("CMD : " +:+ cmd); Print "RESP: sim ok"].

(** The traffic on the control socket. *)
Inductive datagram : Type :=
| Sent (msg : string) (host : string) (port : Z)
| Received.

Definition datagram_of (e : event) : option datagram :=
  match e with
  | SendTo msg host port => Some (Sent msg host port)
  | RecvFrom _ _ => Some Received
  | _ => None
  end.

(** One command on the wire: the datagram out, then the reply. *)
Definition turn (cmd : string) : list datagram :=
  [Sent cmd "192.168.10.1" 8889%Z; Received].

Definition datagrams (evs : list event) : list datagram := omap datagram_of evs.

Definition is_capture_start (e : event) : bool :=
  match e with
  | Popen _ args => bool_decide (head args = Some "ffmpeg")
  | _ => false
  end.

Definition capture_starts (evs : list event) : nat :=
  length (filter (λ e, is_capture_start e = true) evs).

(** The bytes kept of the reply to [cmd], sent after the events [h]. *)
Definition received (w : World) (cmd : string) (h : list event) : string :=
  String.substring 0 1518
    (reply w ((h ++ [Print ("CMD : " +:+ cmd)])
              ++ [SendTo cmd "192.168.10.1" 8889%Z])).

Definition is_print (e : event) : Prop := ∃ line, e = Print line.

(** The events that involve another process. *)
Definition is_subprocess_event (e : event) : bool :=
  match e with
  | Popen _ _ | Communicate _ _ | Wait _ => true
  | _ => false
  end.

(** The events of the network-association step. *)
Definition is_association_event (e : event) : Prop :=
  match e with
  | Print _ => True
  | Popen _ args => head args = Some "nmcli"
  | Communicate _ input => input = None
  | Wait _ => True
  | _ => False
  end.

(** The lines of a connection listing, as both scans split it. *)
Definition listing_lines (out : string) : list string :=
  Py.split Py.newline (Py.rstrip Py.newline (Py.decode_utf8 out)).

(** A line of four fields whose name contains the marker. *)
Definition is_tello_profile (net : string) : bool :=
  match Py.split Py.colon net with
  | [name; _; _; _] => Py.contains "TELLO" name
  | _ => false
  end.

Definition tello_profiles (nets : list string) : nat :=
  length (filter (λ net, is_tello_profile net = true) nets).

(** A line that unpacks into name, uuid, type and device. *)
Definition four_fields (net : string) : Prop :=
  length (Py.split Py.colon net) = 4.

(** ** Worlds and inputs to evaluate the program on *)

(** A world to try the program in: both binaries installed, one Tello
    profile that is not connected, no output file yet, a drone that
    answers every command with ok. *)
Definition demo_world : World := {|
  installed := λ _, true;
  proc_stdout := λ _, "TELLO-AB12:uuid-1:802-11-wireless:" +:+ String Py.newline "";
  proc_returncode := λ _, 0%Z;
  files := ∅;
  reply := λ _, "ok"
|}.

(** A world that already holds the first two output files. *)
Definition used_world : World := {|
  installed := λ _, true;
  proc_stdout := λ _, "";
  proc_returncode := λ _, 0%Z;
  files := {[ "output1.h264"; "output2.h264"; "notes.txt" ]};
  reply := λ _, "ok"
|}.

(** A world whose connection listing holds two Tello profiles. *)
Definition two_tello_world : World := {|
  installed := λ _, true;
  proc_stdout := λ _,
    "home:uuid-0:802-11-wireless:wlan0" +:+ String Py.newline
      ("TELLO-AAAAAA:uuid-1:802-11-wireless:" +:+ String Py.newline
         ("TELLO-BBBBBB:uuid-2:802-11-wireless:" +:+ String Py.newline ""));
  proc_returncode := λ _, 0%Z;
  files := ∅;
  reply := λ _, "ok"
|}.

(** A command of 1519 bytes. *)
Definition long_command : string :=
  String.string_of_list_ascii (replicate 1519 "x"%char).

(** ** Vocabulary for the remaining functions *)

(** [sep.join(pieces)] *)
Fixpoint join_with (sep : ascii) (pieces : list string) : string :=
  match pieces with
  | [] => EmptyString
  | [piece] => piece
  | piece :: rest => piece +:+ String sep (join_with sep rest)
  end.

(** [k] copies of the character [c]. *)
Fixpoint repeat_char (k : nat) (c : ascii) : string :=
  match k with
  | 0 => EmptyString
  | S k' => String c (repeat_char k' c)
  end.

(** [c] occurs in [s]. *)
Fixpoint has_char (c : ascii) (s : string) : bool :=
  match s with
  | EmptyString => false
  | String a s' => Ascii.eqb a c || has_char c s'
  end.

(** A line of four fields that names the profile [uuid] on a device. *)
Definition connected_line (uuid net : string) : bool :=
  match Py.split Py.colon net with
  | [_; nuuid; _; dev] =>
      bool_decide (uuid = nuuid) && bool_decide (0 < String.length dev)
  | _ => false
  end.

(** The first field of a line. *)
Definition profile_name (net : string) : string :=
  default EmptyString (head (Py.split Py.colon net)).

(** The message of isConnected for a line. *)
Definition connected_message (net : string) : event :=
  Print ("Connected to " +:+ Py.dquote +:+ profile_name net +:+ Py.dquote).

(** The two events of reading a connection listing once. *)
Definition listing_call (h : list event) : list event :=
  [Popen (popen_count h) ["nmcli"; "-t"; "con"];
   Communicate (popen_count h) None].

(** The lines that the listing read after the events [h] holds. *)
Definition listing_read (w : World) (h : list event) : list string :=
  listing_lines (proc_stdout w (h ++ listing_call h)).

(** A world without nmcli. *)
Definition no_nmcli_world : World := {|
  installed := λ bin, negb (bool_decide (bin = "nmcli"));
  proc_stdout := λ _, "";
  proc_returncode := λ _, 0%Z;
  files := ∅;
  reply := λ _, "ok"
|}.

(** A world without ffmpeg. *)
Definition no_ffmpeg_world : World := {|
  installed := λ bin, negb (bool_decide (bin = "ffmpeg"));
  proc_stdout := λ _, "";
  proc_returncode := λ _, 0%Z;
  files := ∅;
  reply := λ _, "ok"
|}.

(** A world whose listing holds no Tello profile. *)
Definition no_tello_world : World := {|
  installed := λ _, true;
  proc_stdout := λ _,
    "home:uuid-0:802-11-wireless:wlan0" +:+ String Py.newline
      ("Wired connection 1:uuid-9:802-3-ethernet:" +:+ String Py.newline "");
  proc_returncode := λ _, 0%Z;
  files := ∅;
  reply := λ _, "ok"
|}.

(** A world whose nmcli prints an empty line only. *)
Definition silent_world : World := {|
  installed := λ _, true;
  proc_stdout := λ _, String Py.newline "";
  proc_returncode := λ _, 0%Z;
  files := ∅;
  reply := λ _, "ok"
|}.

(** A world already connected to its one Tello profile. *)
Definition connected_world : World := {|
  installed := λ _, true;
  proc_stdout := λ _,
    "TELLO-AB12:uuid-1:802-11-wireless:wlan0" +:+ String Py.newline
      ("home:uuid-0:802-11-wireless:" +:+ String Py.newline "");
  proc_returncode := λ _, 0%Z;
  files := ∅;
  reply := λ _, "ok"
|}.

(** A world in which activating the Tello profile fails. *)
Definition refusing_world : World := {|
  installed := λ _, true;
  proc_stdout := λ _,
    "TELLO-AB12:uuid-1:802-11-wireless:" +:+ String Py.newline "";
  proc_returncode := λ _, 4%Z;
  files := ∅;
  reply := λ _, "ok"
|}.

(** The events of the part of main that starts with the socket, for the
    command sequence [cmds]. *)
Definition session_event (cmds : list string) (e : event) : Prop :=
  match e with
  | Print _ => True
  | Socket => True
  | Bind host port => host = EmptyString ∧ port = 9000%Z
  | SendTo msg host port =>
      msg ∈ cmds ∧ host = "192.168.10.1" ∧ port = 8889%Z
  | RecvFrom bufsize data => bufsize = 1518 ∧ String.length data ≤ 1518
  | Sleep secs => secs = 5 ∨ secs = 2
  | Popen _ args => head args = Some "ffmpeg"
  | Communicate _ input => input = Some "q"
  | Wait _ => False
  end.

(** The creation and the binding of the socket. *)
Definition is_setup (e : event) : bool :=
  match e with
  | Socket | Bind _ _ => true
  | _ => false
  end.

(** The events that follow the socket set-up. *)
Definition loop_event (cmds : list string) (e : event) : Prop :=
  session_event cmds e ∧ is_setup e = false.

(** The events before the activation of the profile [uuid]: the banner,
    the availability check, getWifiUUID's events [t1], the message naming
    the profile, isConnected's events [t2] and the message announcing the
    activation. *)
Definition before_activation (uuid : string) (t1 t2 : list event)
  : list event :=
  [Print "Tello Test Program"; Popen 0 ["nmcli"]; Communicate 0 None]
  ++ t1 ++ [Print ("Drone WiFi: " +:+ uuid)] ++ t2
  ++ [Print "Connecting to Drone..."].

(** The activation of the profile [uuid] after the events [h]. *)
Definition activation (uuid : string) (h : list event) : list event :=
  [Popen (popen_count h) ["nmcli"; "con"; "up"; uuid];
   Wait (popen_count h)].

(** The handles of the processes started in a trace, in order. *)
Definition started (evs : list event) : list nat :=
  omap (λ e, match e with Popen pid _ => Some pid | _ => None end) evs.

(** What closing the video adds after the events [evs] of the loop. *)
Definition closing (evs : list event) : list event :=
  match last (started evs) with
  | Some proc =>
      [Sleep 2; Print "Closing video stream"; Communicate proc (Some "q")]
  | None => []
  end.

(** A world whose listing holds a profile name with a colon in it. *)
Definition colon_world : World := {|
  installed := λ _, true;
  proc_stdout := λ _,
    "TELLO-AB12:uuid-1:802-11-wireless:" +:+ String Py.newline
      ("My:Home:uuid-3:802-11-wireless:wlan0" +:+ String Py.newline "");
  proc_returncode := λ _, 0%Z;
  files := ∅;
  reply := λ _, "ok"
|}.

(** * Reasoning about computations *)

Section MonadLemmas.

Context {A B : Type}.

Lemma bind_ok (m : M A) (f : A → M B) h a t1 r t2 t :
  m h = (Ok a, t1) → f a (h ++ t1) = (r, t2) → t = t1 ++ t2 →
  (m ≫= f) h = (r, t).
Proof. intros Hm Hf ->. unfold mbind, M_bind. by rewrite Hm, Hf. Qed.

Lemma bind_exit (m : M A) (f : A → M B) h c t1 :
  m h = (Exit c, t1) → (m ≫= f) h = (Exit c, t1).
Proof. intros Hm. unfold mbind, M_bind. by rewrite Hm. Qed.

Lemma bind_raise (m : M A) (f : A → M B) h e t1 :
  m h = (Raise e, t1) → (m ≫= f) h = (Raise e, t1).
Proof. intros Hm. unfold mbind, M_bind. by rewrite Hm. Qed.

Lemma bind_out_of_fuel (m : M A) (f : A → M B) h t1 :
  m h = (OutOfFuel, t1) → (m ≫= f) h = (OutOfFuel, t1).
Proof. intros Hm. unfold mbind, M_bind. by rewrite Hm. Qed.

End MonadLemmas.

Section Only.

Context (P : event → Prop).

Lemma only_mret {A} (Q : A → Prop) (a : A) : Q a → only P Q (mret a).
Proof. intros Ha h. split; [constructor|]. by intros a' [= <-]. Qed.

Lemma only_emit (Q : unit → Prop) e : P e → Q tt → only P Q (emit e).
Proof.
  intros He Hq h. split; [by repeat constructor|]. by intros [] _.
Qed.

Lemma only_history (Q : list event → Prop) :
  (∀ h, Q h) → only P Q history.
Proof. intros Hq h. split; [constructor|]. by intros a [= <-]. Qed.

Lemma only_sys_exit {A} (Q : A → Prop) c : only P Q (sys_exit c).
Proof. intros h. split; [constructor|]. by intros a. Qed.

Lemma only_raise {A} (Q : A → Prop) e : only P Q (raise e).
Proof. intros h. split; [constructor|]. by intros a. Qed.

Lemma only_out_of_fuel {A} (Q : A → Prop) : only P Q out_of_fuel.
Proof. intros h. split; [constructor|]. by intros a. Qed.

Lemma only_bind {A B} (Q : A → Prop) (R : B → Prop) (m : M A) (f : A → M B) :
  only P Q m → (∀ a, Q a → only P R (f a)) → only P R (m ≫= f).
Proof.
  intros Hm Hf h. destruct (Hm h) as [Hev Hval]. unfold mbind, M_bind.
  destruct (m h) as [[a|c|e|] t1]; simpl in *; try done.
  destruct (Hf a (Hval a eq_refl) (h ++ t1)) as [Hev' Hval'].
  destruct (f a (h ++ t1)) as [r t2]. simpl in *.
  split; [by apply Forall_app|done].
Qed.

Lemma only_try_except {A} (Q : A → Prop) (m : M A) exn handler :
  only P Q m → only P Q handler → only P Q (try_except m exn handler).
Proof.
  intros Hm Hh h. destruct (Hm h) as [Hev Hval]. unfold try_except.
  destruct (m h) as [[a|c|e|] t1]; simpl in *; try done.
  case_bool_decide; simpl; [|done].
  destruct (Hh (h ++ t1)) as [Hev' Hval'].
  destruct (handler (h ++ t1)) as [r t2]. simpl in *.
  split; [by apply Forall_app|done].
Qed.

Lemma only_for_each {A B} (I : B → Prop) (xs : list A) (body : B → A → M B)
    acc :
  (∀ acc x, I acc → only P I (body acc x)) → I acc →
  only P I (for_each xs body acc).
Proof.
  intros Hbody. revert acc.
  induction xs as [|x xs IH]; intros acc Hacc; simpl.
  - by apply only_mret.
  - eapply only_bind; [by apply Hbody | intros acc'; apply IH].
Qed.

Lemma only_while {S} (I : S → Prop) fuel (cond : S → bool) (body : S → M S)
    st :
  (∀ st, I st → only P I (body st)) → I st →
  only P I (while fuel cond body st).
Proof.
  intros Hbody. revert st.
  induction fuel as [|fuel IH]; intros st Hst; simpl.
  - apply only_out_of_fuel.
  - destruct (cond st); [|by apply only_mret].
    eapply only_bind; [by apply Hbody | intros st'; apply IH].
Qed.

Lemma only_weaken {A} (P' : event → Prop) (Q Q' : A → Prop) (m : M A) :
  (∀ e, P' e → P e) → (∀ a, Q' a → Q a) → only P' Q' m → only P Q m.
Proof.
  intros HP HQ Hm h. destruct (Hm h) as [Hev Hval].
  split; [by eapply Forall_impl | auto].
Qed.

End Only.

(** * The output name (claims on lines 113-118) *)

Section OutputName.

Lemma string_app_cons (a : ascii) (s t : string) :
  String a s +:+ t = String a (s +:+ t).
Proof. reflexivity. Qed.

Lemma string_length_app (s t : string) :
  String.length (s +:+ t) = String.length s + String.length t.
Proof.
  induction s as [|a s IH]; [done|].
  rewrite string_app_cons. simpl. by rewrite IH.
Qed.

Lemma string_app_inj_r (t s1 s2 : string) : s1 +:+ t = s2 +:+ t → s1 = s2.
Proof.
  revert s2. induction s1 as [|a s1 IH]; intros [|b s2] Heq; [done|..].
  - apply (f_equal String.length) in Heq.
    rewrite !string_length_app in Heq. simpl in Heq. lia.
  - apply (f_equal String.length) in Heq.
    rewrite !string_length_app in Heq. simpl in Heq. lia.
  - rewrite !string_app_cons in Heq. injection Heq as -> Heq.
    f_equal. by apply IH.
Qed.

Global Instance vidFname_of_inj : Inj (=) (=) vidFname_of.
Proof.
  intros m n Heq. unfold vidFname_of, Py.str in Heq.
  apply String.app_inj, string_app_inj_r in Heq.
  by apply (inj pretty) in Heq.
Qed.

(** Names number 1 to [k] that all exist take up [k] files. *)
Lemma used_names_bound (fs : gset string) (k : nat) :
  (∀ m, 1 ≤ m ≤ k → vidFname_of m ∈ fs) → k ≤ size fs.
Proof.
  intros Hused.
  set (names := list_to_set (vidFname_of <$> seq 1 k) : gset string).
  assert (names ⊆ fs) as Hsub.
  { intros p Hp. apply elem_of_list_to_set, list_elem_of_fmap in Hp.
    destruct Hp as (m & -> & Hm). apply elem_of_seq in Hm.
    apply Hused. lia. }
  apply subseteq_size in Hsub. revert Hsub. unfold names.
  rewrite size_list_to_set, length_fmap, length_seq; [done|].
  apply NoDup_fmap_2; [apply _ | apply NoDup_seq].
Qed.

Variable w : World.

Lemma first_free_unique from c1 c2 :
  first_free w from c1 → first_free w from c2 → c1 = c2.
Proof.
  intros (Hle1 & Hfree1 & Hused1) (Hle2 & Hfree2 & Hused2).
  destruct (Nat.lt_trichotomy c1 c2) as [Hlt|[->|Hlt]]; [|done|].
  - destruct Hfree1. apply Hused2. lia.
  - destruct Hfree2. apply Hused1. lia.
Qed.

(** The probing loop, started at [count] with all lower names in use,
    stops at the first free name once the fuel covers the files left. *)
Lemma probe_loop fuel count h :
  (∀ m, 1 ≤ m < count → vidFname_of m ∈ files w) →
  size (files w) < fuel + (count - 1) → 1 ≤ count →
  ∃ n, while fuel (λ c, os_path_exists w (vidFname_of c))
                  (λ c, mret (S c)) count h = (Ok n, [])
       ∧ first_free w count n.
Proof.
  revert count h. induction fuel as [|fuel IH]; intros count h Hused Hfuel Hpos.
  - exfalso. assert (count - 1 ≤ size (files w)); [|simpl in *; lia].
    apply used_names_bound. intros m Hm. apply Hused. lia.
  - simpl. unfold os_path_exists. case_bool_decide as Hex.
    + destruct (IH (S count) (h ++ [])) as (n & Hrun & Hle & Hfree & Hlow).
      * intros m Hm. destruct (decide (m = count)) as [->|]; [done|].
        apply Hused. lia.
      * lia.
      * lia.
      * exists n. split.
        { by eapply bind_ok; [reflexivity | exact Hrun |]. }
        split; [lia|]. split; [done|]. intros m Hm.
        destruct (decide (m = count)) as [->|]; [done|]. apply Hlow. lia.
    + exists count. split; [done|]. split; [done|]. split; [done|].
      intros m Hm. lia.
Qed.

Lemma reserve_count_spec fuel h :
  size (files w) < fuel →
  ∃ n, reserve_count w fuel h = (Ok n, []) ∧ first_free w 1 n.
Proof.
  intros Hfuel. apply probe_loop; [intros m Hm; lia | lia | done].
Qed.

Lemma reserve_name_spec fuel h :
  size (files w) < fuel →
  ∃ n, reserve_name w fuel h = (Ok (vidFname_of n), []) ∧ first_free w 1 n.
Proof.
  intros Hfuel. destruct (reserve_count_spec fuel h Hfuel) as (n & Hrun & Hn).
  exists n. split; [|done]. unfold reserve_name.
  by eapply bind_ok; [exact Hrun | reflexivity |].
Qed.

End OutputName.

(** C4: the name reservation of lines 113-118 returns, with no event of
    its own, the name output<n>.h264 for the smallest counter n, counted
    from 1 in steps of 1, for which no such file exists; the result depends
    on the existing files only (not on the trace so far, the rest of the
    world or the surplus of fuel). *)
Theorem reserve_name_lowest_unused (w : World) (fuel : nat) (h : list event) :
  size (files w) < fuel →
  ∃ n, reserve_name w fuel h = (Ok ("output" +:+ Py.str n +:+ ".h264"), [])
       ∧ 1 ≤ n
       ∧ (("output" +:+ Py.str n +:+ ".h264") ∉ files w)
       ∧ (∀ m, 1 ≤ m < n → ("output" +:+ Py.str m +:+ ".h264") ∈ files w)
       ∧ (∀ w' fuel' h', files w' = files w → size (files w') < fuel' →
            reserve_name w' fuel' h' = reserve_name w fuel h).
Proof.
  intros Hfuel.
  destruct (reserve_name_spec w fuel h Hfuel) as (n & Hrun & Hn).
  exists n. destruct Hn as (Hle & Hfree & Hlow).
  split; [exact Hrun|]. split; [done|]. split; [exact Hfree|].
  split; [exact Hlow|].
  intros w' fuel' h' Hfiles Hfuel'.
  destruct (reserve_name_spec w' fuel' h' Hfuel') as (n' & Hrun' & Hn').
  rewrite Hrun, Hrun'. do 2 f_equal. f_equal.
  apply (first_free_unique w 1); [|done].
  unfold first_free in *. by rewrite <-Hfiles.
Qed.

Lemma reserve_name_lowest_unused_witness :
  size (files used_world) < 4 ∧
  ∃ n, reserve_name used_world 4 [] = (Ok ("output" +:+ Py.str n +:+ ".h264"), [])
       ∧ 1 ≤ n
       ∧ (("output" +:+ Py.str n +:+ ".h264") ∉ files used_world)
       ∧ (∀ m, 1 ≤ m < n →
            ("output" +:+ Py.str m +:+ ".h264") ∈ files used_world)
       ∧ (∀ w' fuel' h', files w' = files used_world →
            size (files w') < fuel' →
            reserve_name w' fuel' h' = reserve_name used_world 4 []).
Proof.
  assert (size (files used_world) < 4) as Hfuel by (vm_compute; lia).
  split; [exact Hfuel|].
  exact (reserve_name_lowest_unused used_world 4 [] Hfuel).
Defined.

(** C5: probing twice while the files stay as they are gives the same
    path both times (whatever happened in between and whatever the surplus
    of fuel), and no probe adds an event; once the returned path
    output<n>.h264 exists, the probe gives output<n'>.h264 for the next
    counter n' above n that was unused. *)
Theorem reserve_name_idempotent (w : World) (fuel1 fuel2 : nat)
    (h1 h2 : list event) :
  size (files w) < fuel1 → size (files w) < fuel2 →
  ∃ n, reserve_name w fuel1 h1 = (Ok (vidFname_of n), [])
       ∧ reserve_name w fuel2 h2 = (Ok (vidFname_of n), [])
       ∧ ∀ w' fuel' h',
           files w' = {[ vidFname_of n ]} ∪ files w →
           size (files w') < fuel' →
           ∃ n', reserve_name w' fuel' h' = (Ok (vidFname_of n'), [])
                 ∧ n < n'
                 ∧ (vidFname_of n' ∉ files w)
                 ∧ (∀ m, n < m < n' → vidFname_of m ∈ files w).
Proof.
  intros Hfuel1 Hfuel2.
  destruct (reserve_name_spec w fuel1 h1 Hfuel1) as (n & Hrun1 & Hn).
  destruct (reserve_name_spec w fuel2 h2 Hfuel2) as (n2 & Hrun2 & Hn2).
  assert (n2 = n) as -> by eauto using first_free_unique.
  exists n. split; [done|]. split; [done|].
  intros w' fuel' h' Hfiles Hfuel'.
  destruct (reserve_name_spec w' fuel' h' Hfuel') as (n' & Hrun' & Hn').
  exists n'. split; [done|].
  destruct Hn as (Hle & Hfree & Hlow), Hn' as (Hle' & Hfree' & Hlow').
  rewrite Hfiles in Hfree', Hlow'.
  assert (n < n') as Hlt.
  { destruct (Nat.lt_trichotomy n n') as [?|[<-|Hgt]]; [done|..].
    - destruct Hfree'. by apply elem_of_union_l, elem_of_singleton.
    - destruct Hfree'. apply elem_of_union_r, Hlow. lia. }
  split; [done|].
  split; [intros Hin; apply Hfree'; by apply elem_of_union_r|].
  intros m Hm. specialize (Hlow' m ltac:(lia)).
  apply elem_of_union in Hlow' as [Heq%elem_of_singleton|]; [|done].
  apply (inj vidFname_of) in Heq. lia.
Qed.

Lemma reserve_name_idempotent_witness :
  ∃ n, reserve_name used_world 4 [] = (Ok (vidFname_of n), [])
       ∧ reserve_name used_world 7 [Print "Tello Test Program"]
         = (Ok (vidFname_of n), [])
       ∧ ∀ w' fuel' h',
           files w' = {[ vidFname_of n ]} ∪ files used_world →
           size (files w') < fuel' →
           ∃ n', reserve_name w' fuel' h' = (Ok (vidFname_of n'), [])
                 ∧ n < n'
                 ∧ (vidFname_of n' ∉ files used_world)
                 ∧ (∀ m, n < m < n' → vidFname_of m ∈ files used_world).
Proof.
  apply (reserve_name_idempotent used_world 4 7 [] [Print "Tello Test Program"]);
    vm_compute; lia.
Defined.

Example reserve_name_used_world :
  reserve_name used_world 4 [] = (Ok "output3.h264", []).
Proof. vm_compute. reflexivity. Qed.

(** * The command loop (lines 120-151) *)

Ltac unfold_script :=
  cbv [mbind M_bind mret M_ret emit history sys_exit raise out_of_fuel
       print sleep popen communicate wait socket_socket sock_bind
       sock_sendto sock_recvfrom Py.encode_utf8 Py.decode_utf8
       fst snd tello_address negb andb orb];
  cbn [app running pendingCommands vidProc lookup list_lookup head default
       delete list_delete length];
  unfold id.

Section Loop.

Variable w : World.
Variable vidFname : string.

Lemma substring_length (n : nat) (s : string) :
  String.length (String.substring 0 n s) ≤ n.
Proof.
  revert s. induction n as [|n IH]; intros [|a s]; simpl; try lia.
  specialize (IH s). lia.
Qed.

Lemma loop_body_empty simulate run vp h :
  loop_body w simulate vidFname
    {| running := run; pendingCommands := []; vidProc := vp |} h
  = (Ok {| running := false; pendingCommands := []; vidProc := vp |}, []).
Proof. reflexivity. Qed.

Lemma loop_body_simulate run cmd rest vp h :
  loop_body w true vidFname
    {| running := run; pendingCommands := cmd :: rest; vidProc := vp |} h
  = (Ok {| running := run; pendingCommands := rest; vidProc := vp |},
     sim_block cmd).
Proof.
  unfold loop_body. cbn [pendingCommands length].
  rewrite bool_decide_true by lia. unfold_script.
  by destruct (bool_decide (cmd = "streamon")).
Qed.

Lemma received_length cmd h : String.length (received w cmd h) ≤ 1518.
Proof. apply substring_length. Qed.

Lemma loop_body_plain_eq run cmd rest vp h :
  cmd ≠ "streamon" →
  loop_body w false vidFname
    {| running := run; pendingCommands := cmd :: rest; vidProc := vp |} h
  = (Ok {| running := run; pendingCommands := rest; vidProc := vp |},
     exchange cmd (received w cmd h)).
Proof.
  intros Hcmd. unfold loop_body. cbn [pendingCommands length].
  rewrite bool_decide_true by lia. unfold_script.
  rewrite bool_decide_false by done. reflexivity.
Qed.

Lemma popen_count_exchange h cmd data :
  popen_count (h ++ exchange cmd data ++ [Sleep 5]) = popen_count h.
Proof.
  unfold popen_count. rewrite filter_app, length_app.
  unfold exchange. simpl. lia.
Qed.

Lemma loop_body_streamon_eq run rest vp h :
  loop_body w false vidFname
    {| running := run; pendingCommands := "streamon" :: rest;
       vidProc := vp |} h
  = let pid := popen_count h in
    (if installed w "ffmpeg"
     then Ok {| running := run; pendingCommands := rest;
                vidProc := Some pid |}
     else Raise "FileNotFoundError",
     exchange "streamon" (received w "streamon" h)
     ++ [Sleep 5; Popen pid (ffmpeg_args vidFname)]).
Proof.
  unfold loop_body. cbn [pendingCommands length].
  rewrite bool_decide_true by lia. unfold_script.
  rewrite bool_decide_true by done.
  change (head (ffmpeg_args vidFname)) with (Some "ffmpeg").
  cbn [from_option]. cbv zeta.
  rewrite <-(popen_count_exchange h "streamon" (received w "streamon" h)).
  unfold exchange, received. rewrite <-!(assoc_L (++)). cbn [app].
  by destruct (installed w "ffmpeg").
Qed.

Lemma loop_body_plain run cmd rest vp h :
  cmd ≠ "streamon" →
  ∃ data, String.length data ≤ 1518 ∧
    loop_body w false vidFname
      {| running := run; pendingCommands := cmd :: rest; vidProc := vp |} h
    = (Ok {| running := run; pendingCommands := rest; vidProc := vp |},
       exchange cmd data).
Proof.
  intros Hcmd. exists (received w cmd h).
  split; [apply received_length | by apply loop_body_plain_eq].
Qed.

Lemma loop_body_streamon run rest vp h :
  ∃ data, String.length data ≤ 1518 ∧
    loop_body w false vidFname
      {| running := run; pendingCommands := "streamon" :: rest;
         vidProc := vp |} h
    = let pid := popen_count h in
      (if installed w "ffmpeg"
       then Ok {| running := run; pendingCommands := rest;
                  vidProc := Some pid |}
       else Raise "FileNotFoundError",
       exchange "streamon" data ++ [Sleep 5; Popen pid (ffmpeg_args vidFname)]).
Proof.
  exists (received w "streamon" h).
  split; [apply received_length | apply loop_body_streamon_eq].
Qed.

Lemma while_stop {S} fuel (cond : S → bool) (body : S → M S) st h :
  cond st = false → while (Datatypes.S fuel) cond body st h = (Ok st, []).
Proof. intros Hc. simpl. by rewrite Hc. Qed.

Lemma while_step {S} fuel (cond : S → bool) (body : S → M S) st h :
  cond st = true →
  while (Datatypes.S fuel) cond body st h
  = (body st ≫= while fuel cond body) h.
Proof. intros Hc. simpl. by rewrite Hc. Qed.

(** The loop in simulate mode: two prints per command. *)
Lemma while_simulate cmds fuel vp h :
  length cmds + 2 ≤ fuel →
  while fuel running (loop_body w true vidFname)
    {| running := true; pendingCommands := cmds; vidProc := vp |} h
  = (Ok {| running := false; pendingCommands := []; vidProc := vp |},
     cmds ≫= sim_block).
Proof.
  revert fuel h. induction cmds as [|cmd cmds IH]; intros fuel h Hfuel.
  - destruct fuel as [|[|fuel]]; [simpl in Hfuel; lia..|].
    rewrite while_step by done.
    eapply bind_ok; [apply loop_body_empty | by apply while_stop | done].
  - destruct fuel as [|fuel]; [simpl in Hfuel; lia|].
    rewrite while_step by done.
    eapply bind_ok; [apply loop_body_simulate | apply IH | done].
    simpl in Hfuel. lia.
Qed.

(** The loop in live mode: a block per command, up to the command at
    which the run is cut short, if it is. *)
Lemma while_live cmds fuel vp h :
  ∃ r blocks k,
    while fuel running (loop_body w false vidFname)
      {| running := true; pendingCommands := cmds; vidProc := vp |} h
    = (r, concat blocks)
    ∧ Forall2 (live_block vidFname) (take k cmds) blocks
    ∧ (installed w "ffmpeg" = true → length cmds + 2 ≤ fuel →
       k = length cmds ∧
       ∃ vp', r = Ok {| running := false; pendingCommands := [];
                        vidProc := vp' |}).
Proof.
  revert fuel vp h. induction cmds as [|cmd cmds IH]; intros fuel vp h.
  - exists (if decide (2 ≤ fuel)
            then Ok {| running := false; pendingCommands := [];
                       vidProc := vp |}
            else OutOfFuel), [], 0.
    split; [|split; [constructor|]].
    + destruct fuel as [|[|fuel]]; [done|done|].
      rewrite decide_True by lia. rewrite while_step by done.
      eapply bind_ok; [apply loop_body_empty | by apply while_stop | done].
    + intros _ Hfuel. simpl in Hfuel. rewrite decide_True by lia. eauto.
  - destruct fuel as [|fuel].
    { exists OutOfFuel, [], 0. split; [done|]. split; [constructor|].
      intros _ Hfuel. simpl in Hfuel. lia. }
    rewrite while_step by done.
    destruct (decide (cmd = "streamon")) as [->|Hcmd].
    + destruct (loop_body_streamon true cmds vp h)
        as (data & _ & Hbody).
      cbv zeta in Hbody.
      set (pid := popen_count h) in *.
      set (block := exchange "streamon" data
                    ++ [Sleep 5; Popen pid (ffmpeg_args vidFname)]) in *.
      destruct (installed w "ffmpeg") eqn:Hff.
      * destruct (IH fuel (Some pid) (h ++ block))
          as (r & blocks & k & Hrun & Hblocks & Hdone).
        exists r, (block :: blocks), (S k).
        split; [by eapply bind_ok|].
        split; [constructor; [constructor | done]|].
        intros _ Hfuel. simpl in Hfuel.
        destruct Hdone as [-> Hr]; [done | lia | done].
      * exists (Raise "FileNotFoundError"), [block], 1.
        split; [|split; [|done]].
        -- erewrite bind_raise by exact Hbody. simpl.
           by rewrite ?app_nil_r.
        -- simpl. repeat constructor.
    + destruct (loop_body_plain true cmd cmds vp h Hcmd)
        as (data & _ & Hbody).
      destruct (IH fuel vp (h ++ exchange cmd data))
        as (r & blocks & k & Hrun & Hblocks & Hdone).
      exists r, (exchange cmd data :: blocks), (S k).
      split; [by eapply bind_ok|].
      split; [constructor; [by constructor | done]|].
      intros Hff Hfuel. simpl in Hfuel.
      destruct Hdone as [-> Hr]; [done | lia | done].
Qed.

End Loop.

Section Blocks.

Variable vidFname : string.

Lemma datagrams_app evs1 evs2 :
  datagrams (evs1 ++ evs2) = datagrams evs1 ++ datagrams evs2.
Proof. apply omap_app. Qed.

Lemma live_block_datagrams cmd block :
  live_block vidFname cmd block → datagrams block = turn cmd.
Proof. by intros [cmd' data Hcmd|data pid]. Qed.

Lemma live_blocks_datagrams cmds blocks :
  Forall2 (live_block vidFname) cmds blocks →
  datagrams (concat blocks) = cmds ≫= turn.
Proof.
  induction 1 as [|cmd block cmds blocks Hblock _ IH]; [done|].
  simpl. rewrite datagrams_app, IH.
  by rewrite (live_block_datagrams cmd block Hblock).
Qed.

Lemma capture_starts_app evs1 evs2 :
  capture_starts (evs1 ++ evs2) = capture_starts evs1 + capture_starts evs2.
Proof. unfold capture_starts. by rewrite filter_app, length_app. Qed.

Lemma live_block_starts cmd block :
  live_block vidFname cmd block →
  capture_starts block = if decide (cmd = "streamon") then 1 else 0.
Proof.
  intros [cmd' data Hcmd|data pid].
  - by rewrite decide_False.
  - done.
Qed.

Lemma live_blocks_starts cmds blocks :
  Forall2 (live_block vidFname) cmds blocks →
  capture_starts (concat blocks)
  = length (filter (λ cmd, cmd = "streamon") cmds).
Proof.
  induction 1 as [|cmd block cmds blocks Hblock _ IH]; [done|].
  simpl. rewrite capture_starts_app, IH, (live_block_starts cmd block Hblock).
  destruct (decide (cmd = "streamon")) as [->|Hcmd].
  - by rewrite filter_cons_True.
  - by rewrite filter_cons_False.
Qed.

(** A process started inside a block is the capture process, and the
    block up to there is the streamon exchange and the settle delay. *)
Lemma live_block_popen cmd block pre pid args post :
  live_block vidFname cmd block →
  block = pre ++ Popen pid args :: post →
  args = ffmpeg_args vidFname ∧ post = [] ∧
  ∃ data, pre = exchange "streamon" data ++ [Sleep 5].
Proof.
  intros [cmd' data Hcmd|data pid'] Heq.
  - exfalso. unfold exchange in Heq.
    do 5 (destruct pre as [|? pre]; simplify_eq/=).
  - unfold exchange in Heq.
    do 6 (destruct pre as [|? pre]; simplify_eq/=); [|by destruct pre].
    eauto.
Qed.

Lemma live_blocks_popen cmds blocks pre pid args post :
  Forall2 (live_block vidFname) cmds blocks →
  concat blocks = pre ++ Popen pid args :: post →
  args = ffmpeg_args vidFname ∧
  ∃ pre' data, pre = pre' ++ exchange "streamon" data ++ [Sleep 5].
Proof.
  intros Hblocks. revert pre.
  induction Hblocks as [|cmd block cmds blocks Hblock _ IH]; intros pre Heq.
  { by destruct pre. }
  simpl in Heq. apply app_eq_inv in Heq as [(k & Hpre & Hk)|(k & -> & Hk)].
  - destruct k as [|e k].
    + rewrite app_nil_r in Hpre. subst pre. simpl in Hk.
      destruct (IH [] (eq_sym Hk)) as (Hargs & pre' & data & Hnil).
      by destruct pre'.
    + simpl in Hk. injection Hk as <- Hpost.
      destruct (live_block_popen cmd block pre pid args k Hblock Hpre)
        as (Hargs & _ & data & ->).
      split; [done|]. by exists [], data.
  - destruct (IH k Hk) as (Hargs & pre' & data & ->).
    split; [done|]. exists (block ++ pre'), data. by rewrite <-(assoc_L (++)).
Qed.

End Blocks.

(** C1: with the capture binary installed and enough fuel, the command
    loop run on any queue ends normally with the queue empty, and the
    traffic on the control socket is, command by command in queue order,
    one datagram to the drone followed by one reply, so no command is sent
    before the reply to the one before it was received.  One pass of the
    loop body sends the front command only and leaves the queue without
    its front element: nothing is put back.  Whatever the fuel and the
    world, the traffic is such a sequence of turns for a front part of
    the queue. *)
Theorem command_loop_in_order (w : World) (vidFname : string)
    (cmds : list string) (fuel : nat) (h : list event) :
  installed w "ffmpeg" = true →
  length cmds + 2 ≤ fuel →
  (∃ st evs,
      command_loop w fuel false vidFname cmds h = (Ok st, evs)
      ∧ running st = false
      ∧ pendingCommands st = []
      ∧ datagrams evs = cmds ≫= turn)
  ∧ (∀ st h' r evs,
       loop_body w false vidFname st h' = (r, evs) →
       datagrams evs = take 1 (pendingCommands st) ≫= turn
       ∧ ∀ st', r = Ok st' → pendingCommands st' = drop 1 (pendingCommands st))
  ∧ (∀ fuel' h', ∃ k,
       datagrams (command_loop w fuel' false vidFname cmds h').2
       = take k cmds ≫= turn).
Proof.
  intros Hff Hfuel. split; [|split].
  - destruct (while_live w vidFname cmds fuel None h)
      as (r & blocks & k & Hrun & Hblocks & Hdone).
    destruct Hdone as (-> & vp' & ->); [done..|].
    rewrite firstn_all in Hblocks.
    eexists _, _. split; [exact Hrun|]. split; [done|]. split; [done|].
    by eapply live_blocks_datagrams.
  - intros [run [|cmd rest] vp] h' r evs Hbody.
    + rewrite loop_body_empty in Hbody. injection Hbody as <- <-.
      split; [done|]. by intros st' [= <-].
    + destruct (decide (cmd = "streamon")) as [->|Hcmd].
      * destruct (loop_body_streamon w vidFname run rest vp h')
          as (data & _ & Hstep).
        rewrite Hstep in Hbody. injection Hbody as <- <-.
        split; [done|]. intros st' Hst'.
        destruct (installed w "ffmpeg"); by simplify_eq.
      * destruct (loop_body_plain w vidFname run cmd rest vp h' Hcmd)
          as (data & _ & Hstep).
        rewrite Hstep in Hbody. injection Hbody as <- <-.
        split; [done|]. by intros st' [= <-].
  - intros fuel' h'.
    destruct (while_live w vidFname cmds fuel' None h')
      as (r & blocks & k & Hrun & Hblocks & _).
    exists k. unfold command_loop. rewrite Hrun. simpl.
    by eapply live_blocks_datagrams.
Qed.

Lemma command_loop_in_order_witness :
  ∃ st evs,
    command_loop demo_world 12 false "output1.h264" commandSequence []
    = (Ok st, evs)
    ∧ running st = false
    ∧ pendingCommands st = []
    ∧ datagrams evs = commandSequence ≫= turn.
Proof.
  apply (command_loop_in_order demo_world "output1.h264" commandSequence 12 []);
    [reflexivity | vm_compute; lia].
Defined.

(** C2, the claim as it stands, fails: a queue that names streamon twice
    starts the capture process twice. *)
Lemma capture_started_twice :
  capture_starts
    (run (main demo_world 4 ["streamon"; "streamon"] true false)).2 = 2
  ∧ capture_starts
      (run (main demo_world 4 ["streamon"; "streamon"] true false)).2 ≠ 1.
Proof. split; [vm_compute; reflexivity | vm_compute; lia]. Qed.

(** C2, amended: in live mode, with the capture binary installed and
    enough fuel, the loop ends normally and has started the capture
    process once for every occurrence of streamon in the queue (so exactly
    once when the token occurs once); every process the loop starts is the
    capture process, and its start comes right after the streamon
    exchange (command, datagram, reply, response) and the delay of 5. *)
Theorem capture_started_per_streamon (w : World) (vidFname : string)
    (cmds : list string) (fuel : nat) (h : list event) :
  installed w "ffmpeg" = true →
  length cmds + 2 ≤ fuel →
  ∃ st evs,
    command_loop w fuel false vidFname cmds h = (Ok st, evs)
    ∧ capture_starts evs = length (filter (λ cmd, cmd = "streamon") cmds)
    ∧ (∀ pre pid args post,
         evs = pre ++ Popen pid args :: post →
         args = ffmpeg_args vidFname
         ∧ ∃ pre' data, pre = pre' ++ exchange "streamon" data ++ [Sleep 5]).
Proof.
  intros Hff Hfuel.
  destruct (while_live w vidFname cmds fuel None h)
    as (r & blocks & k & Hrun & Hblocks & Hdone).
  destruct Hdone as (-> & vp' & ->); [done..|].
  rewrite firstn_all in Hblocks.
  eexists _, _. split; [exact Hrun|]. split.
  - by eapply live_blocks_starts.
  - intros pre pid args post Heq. by eapply live_blocks_popen.
Qed.

Lemma capture_started_per_streamon_witness :
  ∃ st evs,
    command_loop demo_world 12 false "output1.h264" commandSequence []
    = (Ok st, evs)
    ∧ capture_starts evs
      = length (filter (λ cmd, cmd = "streamon") commandSequence)
    ∧ (∀ pre pid args post,
         evs = pre ++ Popen pid args :: post →
         args = ffmpeg_args "output1.h264"
         ∧ ∃ pre' data, pre = pre' ++ exchange "streamon" data ++ [Sleep 5]).
Proof.
  apply (capture_started_per_streamon demo_world "output1.h264"
           commandSequence 12 []);
    [reflexivity | vm_compute; lia].
Defined.

(** C9, the claim as it stands, fails: a command of 1519 bytes is sent
    like any other and the run ends normally. *)
Lemma long_command_is_sent :
  String.length (Py.encode_utf8 long_command) = 1519
  ∧ run (main demo_world 3 [long_command] true false)
    = (Ok tt,
       [Print "Tello Test Program"; Socket; Bind "" 9000%Z;
        Print ("CMD : " +:+ long_command);
        SendTo long_command "192.168.10.1" 8889%Z;
        RecvFrom 1518 "ok"; Print "RESP: ok"]).
Proof. split; vm_compute; reflexivity. Qed.

(** C9, amended: the send of one pass of the loop body checks no size:
    whatever the length of the command, its whole encoding goes to sendto
    as one datagram, the reply kept is at most 1518 bytes (the buffer of
    recvfrom), and no ProtocolError is raised; the pass ends normally with
    the command popped, or, for streamon only, with the FileNotFoundError
    of a missing capture binary. *)
Theorem sendto_checks_no_size (w : World) (vidFname : string) (run : bool)
    (cmd : string) (rest : list string) (vp : option nat) (h : list event) :
  ∃ r evs data,
    loop_body w false vidFname
      {| running := run; pendingCommands := cmd :: rest; vidProc := vp |} h
    = (r, evs)
    ∧ take 4 evs
      = [Print ("CMD : " +:+ cmd);
         SendTo (Py.encode_utf8 cmd) "192.168.10.1" 8889%Z;
         RecvFrom 1518 data; Print ("RESP: " +:+ data)]
    ∧ String.length data ≤ 1518
    ∧ r ≠ Raise "ProtocolError"
    ∧ ((∃ vp', r = Ok {| running := run; pendingCommands := rest;
                         vidProc := vp' |})
       ∨ (cmd = "streamon" ∧ r = Raise "FileNotFoundError")).
Proof.
  destruct (decide (cmd = "streamon")) as [->|Hcmd].
  - destruct (loop_body_streamon w vidFname run rest vp h)
      as (data & Hlen & Hstep).
    eexists _, _, data. split; [exact Hstep|]. split; [done|].
    split; [done|]. cbv zeta. destruct (installed w "ffmpeg").
    + split; [done|]. left. eauto.
    + split; [done|]. by right.
  - destruct (loop_body_plain w vidFname run cmd rest vp h Hcmd)
      as (data & Hlen & Hstep).
    eexists _, _, data. split; [exact Hstep|]. split; [done|].
    split; [done|]. split; [done|]. left. eauto.
Qed.

(** * Whole runs *)

Section Runs.

Variable w : World.

Lemma prelude_skipped disableNm simulate h :
  disableNm || simulate = true →
  prelude w disableNm simulate h = (Ok tt, [Print "Tello Test Program"]).
Proof. intros Hskip. unfold prelude, use_nmcli. by rewrite Hskip. Qed.

Lemma open_socket_live h :
  open_socket false h = (Ok tt, [Socket; Bind "" 9000%Z]).
Proof. reflexivity. Qed.

Lemma open_socket_simulate h : open_socket true h = (Ok tt, []).
Proof. reflexivity. Qed.

Lemma close_video_none h : close_video w None h = (Ok tt, []).
Proof. reflexivity. Qed.

Lemma close_video_some proc h :
  close_video w (Some proc) h
  = (Ok tt, [Sleep 2; Print "Closing video stream";
             Communicate proc (Some "q")]).
Proof. reflexivity. Qed.

(** A run is its prelude followed, if the prelude ends normally, by the
    session started from the events of the prelude. *)
Lemma main_after_prelude fuel cmds disableNm simulate pre r evs :
  prelude w disableNm simulate [] = (Ok tt, pre) →
  session w fuel cmds simulate pre = (r, evs) →
  run (main w fuel cmds disableNm simulate) = (r, pre ++ evs).
Proof. intros Hpre Hses. unfold run, main. by eapply bind_ok. Qed.

Lemma session_simulate fuel cmds h :
  size (files w) < fuel → length cmds + 2 ≤ fuel →
  session w fuel cmds true h = (Ok tt, cmds ≫= sim_block).
Proof.
  intros Hfiles Hfuel. unfold session.
  eapply bind_ok; [apply open_socket_simulate| |reflexivity].
  destruct (reserve_name_spec w fuel (h ++ []) Hfiles) as (n & Hname & _).
  eapply bind_ok; [exact Hname| |reflexivity].
  eapply bind_ok; [by apply while_simulate|apply close_video_none|].
  by rewrite app_nil_r.
Qed.

Lemma session_empty fuel simulate h :
  size (files w) < fuel → 2 ≤ fuel →
  session w fuel [] simulate h
  = (Ok tt, if simulate then [] else [Socket; Bind "" 9000%Z]).
Proof.
  intros Hfiles Hfuel. destruct simulate.
  { by apply session_simulate. }
  unfold session.
  eapply bind_ok; [apply open_socket_live| |reflexivity].
  destruct (reserve_name_spec w fuel (h ++ [Socket; Bind "" 9000%Z]) Hfiles)
    as (n & Hname & _).
  eapply bind_ok; [exact Hname| |reflexivity].
  destruct fuel as [|[|fuel]]; [lia..|].
  eapply bind_ok.
  - unfold command_loop. rewrite while_step by done.
    eapply bind_ok; [apply loop_body_empty | by apply while_stop | done].
  - apply close_video_none.
  - done.
Qed.

End Runs.

(** Goes through a computation bind by bind and branch by branch. *)
Ltac only_steps :=
  repeat match goal with
  | |- only _ _ (mbind _ _) => eapply (only_bind _ (λ _, True)); [|intros ? _]
  | |- only _ _ (try_except _ _ _) => apply only_try_except
  | |- only _ _ (emit _) => apply only_emit; [simpl; eauto|done]
  | |- only _ _ (mret _) => by apply only_mret
  | |- only _ _ (sys_exit _) => apply only_sys_exit
  | |- only _ _ (raise _) => apply only_raise
  | |- only _ _ out_of_fuel => apply only_out_of_fuel
  | |- only _ _ history => by apply only_history
  | |- only _ _ (for_each _ _ _) =>
      apply (only_for_each _ (λ _, True)); [intros ? ? _|done]
  | |- only _ _ (while _ _ _ _) =>
      apply (only_while _ (λ _, True)); [intros ? _|done]
  | |- only _ _ (if ?b then _ else _) => destruct b
  | |- only _ _ (match ?x with _ => _ end) => destruct x
  end.

Section Association.

Variable w : World.

Lemma prelude_events disableNm simulate :
  only is_association_event (λ _, True) (prelude w disableNm simulate).
Proof.
  unfold prelude, use_nmcli, haveNmcli, associate, getWifiUUID, isConnected,
    getWifiUUID_body, isConnected_body, unpack4, popen, communicate, wait,
    print.
  only_steps.
Qed.

End Association.

Section Simulate.

Variable w : World.

Lemma loop_body_simulate_only vidFname st :
  vidProc st = None →
  only is_print (λ st', vidProc st' = None) (loop_body w true vidFname st).
Proof.
  intros Hvp h. destruct st as [run [|cmd rest] vp]; simpl in Hvp; subst vp.
  - rewrite loop_body_empty. split; [constructor|]. by intros st' [= <-].
  - rewrite loop_body_simulate. split.
    + repeat constructor; eexists; reflexivity.
    + by intros st' [= <-].
Qed.

Lemma main_simulate_only fuel cmds disableNm :
  only is_print (λ _, True) (main w fuel cmds disableNm true).
Proof.
  unfold main. eapply (only_bind _ (λ _, True)); [|intros _ _].
  { intros h. rewrite prelude_skipped by apply orb_true_r.
    split; [|done]. repeat constructor. by eexists. }
  unfold session, open_socket, reserve_name, reserve_count, command_loop.
  simpl negb. cbv iota.
  eapply (only_bind _ (λ _, True)); [by apply only_mret|intros _ _].
  eapply (only_bind _ (λ _, True)); [only_steps|intros vidFname _].
  eapply (only_bind _ (λ st, vidProc st = None)).
  - apply only_while; [|done]. apply loop_body_simulate_only.
  - intros st ->. by apply only_mret.
Qed.

End Simulate.

(** C7: in simulate mode, on every queue and whatever the other flag,
    a run with enough fuel ends normally and its whole trace is the banner
    followed, per command, by the command line and the fixed reply line:
    every event is a print, so no socket is created or bound, no datagram
    is sent or received, and no process is started (hence no capture
    process and no output file). *)
Theorem simulate_run_only_prints (w : World) (fuel : nat) (cmds : list string)
    (disableNm : bool) :
  size (files w) < fuel →
  length cmds + 2 ≤ fuel →
  run (main w fuel cmds disableNm true)
  = (Ok tt,
     Print "Tello Test Program"
     :: (cmds ≫= λ cmd, [Print ("CMD : " +:+ cmd); Print "RESP: sim ok"]))
  ∧ Forall is_print (run (main w fuel cmds disableNm true)).2
  ∧ datagrams (run (main w fuel cmds disableNm true)).2 = []
  ∧ capture_starts (run (main w fuel cmds disableNm true)).2 = 0.
Proof.
  intros Hfiles Hfuel.
  assert (run (main w fuel cmds disableNm true)
          = (Ok tt, Print "Tello Test Program" :: (cmds ≫= sim_block))) as Hrun.
  { change (Print "Tello Test Program" :: (cmds ≫= sim_block))
      with ([Print "Tello Test Program"] ++ (cmds ≫= sim_block)).
    apply main_after_prelude.
    - apply prelude_skipped, orb_true_r.
    - by apply session_simulate. }
  split; [exact Hrun|].
  assert (Forall is_print (run (main w fuel cmds disableNm true)).2) as Hprints.
  { apply main_simulate_only. }
  split; [exact Hprints|]. clear Hrun.
  induction Hprints as [|e evs [line ->] _ IH]; [done|].
  destruct IH as [IH1 IH2]. split.
  - unfold datagrams in *. simpl. exact IH1.
  - unfold capture_starts in *. rewrite filter_cons_False by (simpl; congruence).
    exact IH2.
Qed.

Lemma simulate_run_only_prints_witness :
  run (main used_world 5 ["command"; "battery?"; "land"] false true)
  = (Ok tt,
     Print "Tello Test Program"
     :: (["command"; "battery?"; "land"]
           ≫= λ cmd, [Print ("CMD : " +:+ cmd); Print "RESP: sim ok"])).
Proof.
  apply (simulate_run_only_prints used_world 5 ["command"; "battery?"; "land"]
           false);
    vm_compute; lia.
Defined.

(** C10: with the simulate flag set, whatever the other flag, the world,
    the queue and the fuel, no event of the run involves another process:
    nmcli is never started, not even for the availability check. *)
Theorem simulate_never_spawns (w : World) (fuel : nat) (cmds : list string)
    (disableNm : bool) (h : list event) :
  Forall (λ e, is_subprocess_event e = false)
    (main w fuel cmds disableNm true h).2.
Proof.
  eapply Forall_impl; [apply main_simulate_only|].
  by intros e [line ->].
Qed.

(** C6: on the empty queue, once the steps before the loop have ended
    normally, the run ends normally and adds nothing but, in live mode,
    the creation and binding of the socket: no datagram, no capture
    process, no delay, no termination signal.  The loop itself ends after
    the single pass that finds the queue empty, with no event and no
    capture handle, and closing a handle that was never started does
    nothing. *)
Theorem empty_queue_no_effects (w : World) (fuel : nat)
    (disableNm simulate : bool) (pre : list event) :
  size (files w) < fuel →
  2 ≤ fuel →
  prelude w disableNm simulate [] = (Ok tt, pre) →
  run (main w fuel [] disableNm simulate)
  = (Ok tt, pre ++ (if simulate then [] else [Socket; Bind "" 9000%Z]))
  ∧ Forall is_association_event pre
  ∧ (∀ vidFname h,
       command_loop w 2 simulate vidFname [] h
       = (Ok {| running := false; pendingCommands := []; vidProc := None |},
          []))
  ∧ (∀ h, close_video w None h = (Ok tt, [])).
Proof.
  intros Hfiles Hfuel Hpre. split; [|split; [|split]].
  - apply main_after_prelude; [done|]. by apply session_empty.
  - destruct (prelude_events w disableNm simulate []) as [Hev _].
    by rewrite Hpre in Hev.
  - intros vidFname h. destruct simulate; reflexivity.
  - intros h. apply close_video_none.
Qed.

Lemma empty_queue_no_effects_witness :
  run (main demo_world 2 [] false false)
  = (Ok tt,
     [Print "Tello Test Program";
      Popen 0 ["nmcli"]; Communicate 0 None;
      Popen 1 ["nmcli"; "-t"; "con"]; Communicate 1 None;
      Print "Drone WiFi: uuid-1";
      Popen 2 ["nmcli"; "-t"; "con"]; Communicate 2 None;
      Print "Connecting to Drone...";
      Popen 3 ["nmcli"; "con"; "up"; "uuid-1"]; Wait 3;
      Print "  Connected"]
     ++ [Socket; Bind "" 9000%Z]).
Proof.
  apply (empty_queue_no_effects demo_world 2 false false);
    [vm_compute; lia | lia | vm_compute; reflexivity].
Defined.

Section Scenario.

Variable w : World.

Lemma popen_count_app h evs :
  Forall (λ e, is_popen e = false) evs →
  popen_count (h ++ evs) = popen_count h.
Proof.
  intros Hevs. unfold popen_count. rewrite filter_app, length_app.
  induction Hevs as [|e evs He _ IH]; simpl; [lia|].
  rewrite filter_cons_False by congruence. exact IH.
Qed.

Lemma session_stream_scenario fuel h :
  installed w "ffmpeg" = true →
  size (files w) < fuel → 5 ≤ fuel →
  ∃ n r1 r2 r3,
    first_free w 1 n
    ∧ session w fuel ["command"; "streamon"; "land"] false h
      = (Ok tt,
         [Socket; Bind "" 9000%Z]
         ++ exchange "command" r1
         ++ exchange "streamon" r2
         ++ [Sleep 5;
             Popen (popen_count h)
               (ffmpeg_args (vidFname_of n))]
         ++ exchange "land" r3
         ++ [Sleep 2; Print "Closing video stream";
             Communicate (popen_count h)
               (Some "q")]).
Proof.
  intros Hff Hfiles Hfuel.
  destruct (reserve_name_spec w fuel ((h ++ [Socket; Bind "" 9000%Z])) Hfiles)
    as (n & Hname & Hn).
  exists n. eexists _, _, _. split; [exact Hn|].
  unfold session.
  eapply bind_ok; [apply open_socket_live| |reflexivity].
  eapply bind_ok; [exact Hname| |reflexivity].
  do 5 (destruct fuel as [|fuel]; [lia|]).
  eapply bind_ok.
  - unfold command_loop. rewrite while_step by done.
    eapply bind_ok; [by apply loop_body_plain_eq| |reflexivity].
    rewrite while_step by done.
    eapply bind_ok;
      [rewrite loop_body_streamon_eq, Hff; reflexivity| |reflexivity].
    rewrite while_step by done.
    eapply bind_ok; [by apply loop_body_plain_eq| |reflexivity].
    rewrite while_step by done.
    eapply bind_ok; [apply loop_body_empty|by apply while_stop|reflexivity].
  - cbn [vidProc]. apply close_video_some.
  - rewrite !popen_count_app by (repeat constructor).
    cbv zeta. rewrite !app_nil_r, <-!(assoc_L (++)). reflexivity.
Qed.

End Scenario.

(** C3: the queue command, streamon, land in live mode, with the capture
    binary installed, enough fuel and the steps before the socket ended
    normally: the run ends normally, and after those steps its trace is
    the socket set-up, the command exchange, the streamon exchange, a
    delay of 5, the start of the capture process writing to output<n>.h264
    for the lowest unused n, the land exchange (the last command: the
    queue is empty after it), a delay of 2, the closing message and
    communicate with the one byte q on that same process, which waits for
    its exit. *)
Theorem stream_scenario (w : World) (fuel : nat) (disableNm : bool)
    (pre : list event) :
  installed w "ffmpeg" = true →
  size (files w) < fuel →
  5 ≤ fuel →
  prelude w disableNm false [] = (Ok tt, pre) →
  ∃ n pid r1 r2 r3,
    (1 ≤ n
     ∧ (("output" +:+ Py.str n +:+ ".h264") ∉ files w)
     ∧ (∀ m, 1 ≤ m < n → ("output" +:+ Py.str m +:+ ".h264") ∈ files w))
    ∧ run (main w fuel ["command"; "streamon"; "land"] disableNm false)
      = (Ok tt,
         pre ++
         [Socket; Bind "" 9000%Z;
          Print "CMD : command"; SendTo "command" "192.168.10.1" 8889%Z;
          RecvFrom 1518 r1; Print ("RESP: " +:+ r1);
          Print "CMD : streamon"; SendTo "streamon" "192.168.10.1" 8889%Z;
          RecvFrom 1518 r2; Print ("RESP: " +:+ r2);
          Sleep 5;
          Popen pid ["ffmpeg"; "-v"; "-8"; "-i"; "udp://@:11111";
                     "-vcodec"; "copy"; "-acodec"; "none";
                     "output" +:+ Py.str n +:+ ".h264"];
          Print "CMD : land"; SendTo "land" "192.168.10.1" 8889%Z;
          RecvFrom 1518 r3; Print ("RESP: " +:+ r3);
          Sleep 2; Print "Closing video stream";
          Communicate pid (Some "q")]).
Proof.
  intros Hff Hfiles Hfuel Hpre.
  destruct (session_stream_scenario w fuel pre Hff Hfiles Hfuel)
    as (n & r1 & r2 & r3 & Hn & Hses).
  exists n, (popen_count pre), r1, r2, r3.
  split; [exact Hn|].
  by apply main_after_prelude.
Qed.

Lemma stream_scenario_witness :
  ∃ n pid r1 r2 r3,
    (1 ≤ n
     ∧ (("output" +:+ Py.str n +:+ ".h264") ∉ files used_world)
     ∧ (∀ m, 1 ≤ m < n →
          ("output" +:+ Py.str m +:+ ".h264") ∈ files used_world))
    ∧ run (main used_world 5 ["command"; "streamon"; "land"] true false)
      = (Ok tt,
         [Print "Tello Test Program"] ++
         [Socket; Bind "" 9000%Z;
          Print "CMD : command"; SendTo "command" "192.168.10.1" 8889%Z;
          RecvFrom 1518 r1; Print ("RESP: " +:+ r1);
          Print "CMD : streamon"; SendTo "streamon" "192.168.10.1" 8889%Z;
          RecvFrom 1518 r2; Print ("RESP: " +:+ r2);
          Sleep 5;
          Popen pid ["ffmpeg"; "-v"; "-8"; "-i"; "udp://@:11111";
                     "-vcodec"; "copy"; "-acodec"; "none";
                     "output" +:+ Py.str n +:+ ".h264"];
          Print "CMD : land"; SendTo "land" "192.168.10.1" 8889%Z;
          RecvFrom 1518 r3; Print ("RESP: " +:+ r3);
          Sleep 2; Print "Closing video stream";
          Communicate pid (Some "q")]).
Proof.
  apply (stream_scenario used_world 5 true [Print "Tello Test Program"]);
    [reflexivity | vm_compute; lia | lia | vm_compute; reflexivity].
Defined.

Example stream_scenario_used_world :
  run (main used_world 5 ["command"; "streamon"; "land"] true false)
  = (Ok tt,
     [Print "Tello Test Program"; Socket; Bind "" 9000%Z;
      Print "CMD : command"; SendTo "command" "192.168.10.1" 8889%Z;
      RecvFrom 1518 "ok"; Print "RESP: ok";
      Print "CMD : streamon"; SendTo "streamon" "192.168.10.1" 8889%Z;
      RecvFrom 1518 "ok"; Print "RESP: ok";
      Sleep 5;
      Popen 0 ["ffmpeg"; "-v"; "-8"; "-i"; "udp://@:11111";
               "-vcodec"; "copy"; "-acodec"; "none"; "output3.h264"];
      Print "CMD : land"; SendTo "land" "192.168.10.1" 8889%Z;
      RecvFrom 1518 "ok"; Print "RESP: ok";
      Sleep 2; Print "Closing video stream";
      Communicate 0 (Some "q")]).
Proof. vm_compute. reflexivity. Qed.

(** * The network-association step (lines 36-53, 72-97) *)

Section Profiles.

Variable w : World.

Lemma getWifiUUID_body_cases uuid net h :
  match Py.split Py.colon net with
  | [name; nuuid; _; _] =>
      if Py.contains "TELLO" name then
        match uuid with
        | Some _ =>
            getWifiUUID_body uuid net h
            = (Exit (-1)%Z, [Print "Multiple Tello WiFi networks found"])
        | None => getWifiUUID_body uuid net h = (Ok (Some nuuid), [])
        end
      else getWifiUUID_body uuid net h = (Ok uuid, [])
  | _ => getWifiUUID_body uuid net h = (Raise "ValueError", [])
  end.
Proof.
  unfold getWifiUUID_body.
  destruct (Py.split Py.colon net) as [|name [|nuuid [|typ [|dev [|? ?]]]]];
    try reflexivity.
  unfold unpack4. unfold_script.
  destruct (Py.contains "TELLO" name); [|reflexivity].
  by destruct uuid.
Qed.

Lemma tello_profiles_cons net nets :
  tello_profiles (net :: nets)
  = (if is_tello_profile net then 1 else 0) + tello_profiles nets.
Proof.
  unfold tello_profiles. destruct (is_tello_profile net) eqn:Hnet.
  - by rewrite filter_cons_True.
  - rewrite filter_cons_False; [done|]. by rewrite Hnet.
Qed.

(** Scanning lines that hold a second Tello profile ends the run. *)
Lemma scan_multiple nets (uuid : option string) h :
  2 ≤ tello_profiles nets + (if uuid is Some _ then 1 else 0) →
  for_each nets getWifiUUID_body uuid h
  = (Exit (-1)%Z, [Print "Multiple Tello WiFi networks found"])
  ∨ (for_each nets getWifiUUID_body uuid h = (Raise "ValueError", [])
     ∧ ¬ Forall four_fields nets).
Proof.
  revert uuid h. induction nets as [|net nets IH]; intros uuid h Hcount.
  { destruct uuid; unfold tello_profiles in Hcount; simpl in Hcount; lia. }
  rewrite tello_profiles_cons in Hcount.
  pose proof (getWifiUUID_body_cases uuid net h) as Hbody.
  assert (∀ e, getWifiUUID_body uuid net h = (Raise e, []) →
               for_each (net :: nets) getWifiUUID_body uuid h = (Raise e, []))
    as Hraise.
  { intros e He. simpl. by apply bind_raise. }
  assert (length (Py.split Py.colon net) ≠ 4 →
          ¬ Forall four_fields (net :: nets)) as Hbad.
  { intros Hne Hall. by apply Forall_cons in Hall as [? _]. }
  assert (∀ uuid', getWifiUUID_body uuid net h = (Ok uuid', []) →
            2 ≤ tello_profiles nets + (if uuid' is Some _ then 1 else 0) →
            for_each (net :: nets) getWifiUUID_body uuid h
            = (Exit (-1)%Z, [Print "Multiple Tello WiFi networks found"])
            ∨ (for_each (net :: nets) getWifiUUID_body uuid h
               = (Raise "ValueError", [])
               ∧ ¬ Forall four_fields (net :: nets))) as Hnext.
  { intros uuid' Hok Hcount'.
    destruct (IH uuid' (h ++ []) Hcount') as [Hrun|[Hrun Hnot]].
    - left. simpl. by eapply bind_ok.
    - right. split; [simpl; by eapply bind_ok|].
      intros Hall. by apply Forall_cons in Hall as [_ ?]. }
  unfold is_tello_profile in Hcount.
  destruct (Py.split Py.colon net) as [|name [|nuuid [|typ [|dev [|? ?]]]]];
    try (right; split; [by apply Hraise | by apply Hbad]).
  destruct (Py.contains "TELLO" name).
  - destruct uuid as [u|].
    + left. simpl. by apply bind_exit.
    + apply (Hnext (Some nuuid)); [done|]. simpl in *. lia.
  - by apply (Hnext uuid).
Qed.

Lemma haveNmcli_installed h :
  installed w "nmcli" = true →
  haveNmcli w h
  = (Ok true, [Popen (popen_count h) ["nmcli"];
               Communicate (popen_count h) None]).
Proof.
  intros Hnm. unfold haveNmcli, try_except. unfold_script.
  by rewrite Hnm.
Qed.

Lemma getWifiUUID_multiple h :
  installed w "nmcli" = true →
  2 ≤ tello_profiles
        (listing_lines
           (proc_stdout w (h ++ [Popen (popen_count h) ["nmcli"; "-t"; "con"];
                                 Communicate (popen_count h) None]))) →
  ∃ r evs,
    getWifiUUID w h
    = (r, [Popen (popen_count h) ["nmcli"; "-t"; "con"];
           Communicate (popen_count h) None] ++ evs)
    ∧ ((r = Exit (-1)%Z ∧ evs = [Print "Multiple Tello WiFi networks found"])
       ∨ (r = Raise "ValueError" ∧ evs = []
          ∧ ¬ Forall four_fields
                (listing_lines
                   (proc_stdout w
                      (h ++ [Popen (popen_count h) ["nmcli"; "-t"; "con"];
                             Communicate (popen_count h) None]))))).
Proof.
  intros Hnm Hcount.
  set (out := proc_stdout w _) in *.
  assert (popen w ["nmcli"; "-t"; "con"] h
          = (Ok (popen_count h), [Popen (popen_count h) ["nmcli"; "-t"; "con"]]))
    as Hpopen.
  { unfold popen. unfold_script. by rewrite Hnm. }
  assert (communicate w (popen_count h) None
            (h ++ [Popen (popen_count h) ["nmcli"; "-t"; "con"]])
          = (Ok out, [Communicate (popen_count h) None])) as Hcomm.
  { unfold communicate, out. unfold_script.
    by rewrite <-(assoc_L (++)). }
  destruct (scan_multiple (listing_lines out) None
              ((h ++ [Popen (popen_count h) ["nmcli"; "-t"; "con"]])
               ++ [Communicate (popen_count h) None]))
    as [Hscan|[Hscan Hnot]]; [by rewrite Nat.add_0_r|..].
  - eexists _, _. split; [|left; done].
    unfold getWifiUUID.
    eapply bind_ok; [exact Hpopen| |reflexivity].
    eapply bind_ok; [exact Hcomm| |reflexivity].
    apply bind_exit. exact Hscan.
  - eexists _, _. split; [|right; done].
    unfold getWifiUUID.
    eapply bind_ok; [exact Hpopen| |reflexivity].
    eapply bind_ok; [exact Hcomm| |reflexivity].
    apply bind_raise. exact Hscan.
Qed.

End Profiles.

(** C8: with NetworkManager in use (neither flag set, nmcli installed),
    when the connection listing read by getWifiUUID holds more than one
    line of four fields whose name contains TELLO, the run stops inside
    getWifiUUID: with sys.exit(-1) right after the message about multiple
    networks, or, if a line met before the second such profile does not
    have four fields, with the ValueError of the unpacking.  Either way
    the trace holds the banner and the two nmcli calls only: no socket was
    created and no datagram was sent or received. *)
Theorem multiple_profiles_abort (w : World) (fuel : nat) (cmds : list string) :
  installed w "nmcli" = true →
  2 ≤ tello_profiles
        (listing_lines
           (proc_stdout w
              [Print "Tello Test Program";
               Popen 0 ["nmcli"]; Communicate 0 None;
               Popen 1 ["nmcli"; "-t"; "con"]; Communicate 1 None])) →
  ∃ r evs,
    run (main w fuel cmds false false)
    = (r, [Print "Tello Test Program";
           Popen 0 ["nmcli"]; Communicate 0 None;
           Popen 1 ["nmcli"; "-t"; "con"]; Communicate 1 None] ++ evs)
    ∧ ((r = Exit (-1)%Z
        ∧ evs = [Print "Multiple Tello WiFi networks found"])
       ∨ (r = Raise "ValueError" ∧ evs = []
          ∧ ¬ Forall four_fields
                (listing_lines
                   (proc_stdout w
                      [Print "Tello Test Program";
                       Popen 0 ["nmcli"]; Communicate 0 None;
                       Popen 1 ["nmcli"; "-t"; "con"]; Communicate 1 None]))))
    ∧ (Socket ∉ (run (main w fuel cmds false false)).2)
    ∧ datagrams (run (main w fuel cmds false false)).2 = [].
Proof.
  intros Hnm Hcount.
  set (h := [Print "Tello Test Program"; Popen 0 ["nmcli"];
             Communicate 0 None]).
  destruct (getWifiUUID_multiple w h Hnm Hcount)
    as (r & evs & Hget & Hcases).
  change (popen_count h) with 1 in Hget.
  assert (use_nmcli w false false [Print "Tello Test Program"]
          = (Ok true, [Popen 0 ["nmcli"]; Communicate 0 None])) as Huse.
  { unfold use_nmcli. simpl orb. cbv iota.
    eapply bind_ok; [by apply haveNmcli_installed|reflexivity|reflexivity]. }
  assert (∃ r' : outcome unit,
            run (main w fuel cmds false false)
            = (r', [Print "Tello Test Program"; Popen 0 ["nmcli"];
                    Communicate 0 None; Popen 1 ["nmcli"; "-t"; "con"];
                    Communicate 1 None] ++ evs)
            ∧ (r = Exit (-1)%Z → r' = Exit (-1)%Z)
            ∧ (r = Raise "ValueError" → r' = Raise "ValueError"))
    as (r' & Hrun & Hexit & Hraise).
  { unfold run, main.
    destruct Hcases as [[-> ->]|(-> & -> & _)].
    - exists (Exit (-1)%Z). split; [|done]. apply bind_exit.
      unfold prelude.
      eapply bind_ok; [reflexivity| |reflexivity].
      eapply bind_ok; [exact Huse| |reflexivity].
      cbv iota. unfold associate. apply bind_exit. exact Hget.
    - exists (Raise "ValueError"). split; [|done]. apply bind_raise.
      unfold prelude.
      eapply bind_ok; [reflexivity| |reflexivity].
      eapply bind_ok; [exact Huse| |reflexivity].
      cbv iota. unfold associate. apply bind_raise. exact Hget. }
  exists r', evs. rewrite Hrun. split; [done|]. split.
  - destruct Hcases as [[Hr ->]|(Hr & -> & Hnot)]; [left|right]; auto.
  - destruct Hcases as [[_ ->]|(_ & -> & _)]; simpl.
    + split; [|done]. intros Hin.
      repeat (apply elem_of_cons in Hin as [?|Hin]; [done|]).
      by apply elem_of_nil in Hin.
    + split; [|done]. intros Hin.
      repeat (apply elem_of_cons in Hin as [?|Hin]; [done|]).
      by apply elem_of_nil in Hin.
Qed.

Lemma multiple_profiles_abort_witness :
  ∃ r evs,
    run (main two_tello_world 12 commandSequence false false)
    = (r, [Print "Tello Test Program";
           Popen 0 ["nmcli"]; Communicate 0 None;
           Popen 1 ["nmcli"; "-t"; "con"]; Communicate 1 None] ++ evs)
    ∧ ((r = Exit (-1)%Z
        ∧ evs = [Print "Multiple Tello WiFi networks found"])
       ∨ (r = Raise "ValueError" ∧ evs = []
          ∧ ¬ Forall four_fields
                (listing_lines
                   (proc_stdout two_tello_world
                      [Print "Tello Test Program";
                       Popen 0 ["nmcli"]; Communicate 0 None;
                       Popen 1 ["nmcli"; "-t"; "con"]; Communicate 1 None]))))
    ∧ (Socket ∉ (run (main two_tello_world 12 commandSequence false false)).2)
    ∧ datagrams (run (main two_tello_world 12 commandSequence false false)).2
      = [].
Proof.
  apply (multiple_profiles_abort two_tello_world 12 commandSequence);
    [reflexivity | vm_compute; lia].
Defined.

Example two_tello_world_run :
  run (main two_tello_world 12 commandSequence false false)
  = (Exit (-1)%Z,
     [Print "Tello Test Program";
      Popen 0 ["nmcli"]; Communicate 0 None;
      Popen 1 ["nmcli"; "-t"; "con"]; Communicate 1 None;
      Print "Multiple Tello WiFi networks found"]).
Proof. vm_compute. reflexivity. Qed.

(** * The string operations of the listing scans (lines 41-44, 61-64) *)

Section PyStrings.

Lemma split_nonempty sep s : Py.split sep s ≠ [].
Proof.
  destruct s as [|c s]; simpl; [done|].
  destruct (Ascii.eqb c sep); [done|]. by destruct (Py.split sep s).
Qed.

Lemma join_with_cons sep piece pieces :
  pieces ≠ [] →
  join_with sep (piece :: pieces) = piece +:+ String sep (join_with sep pieces).
Proof. by destruct pieces. Qed.

Lemma prefix_spec needle s :
  String.prefix needle s = true ↔ ∃ post, s = needle +:+ post.
Proof.
  revert s. induction needle as [|a needle IH]; intros s.
  - split; [intros _; by exists s|]. by destruct s.
  - destruct s as [|b s]; simpl.
    + split; [done|]. by intros [post Hpost].
    + destruct (ascii_dec a b) as [->|Hne].
      * rewrite IH. split; intros [post Hpost]; exists post.
        -- by rewrite string_app_cons, Hpost.
        -- rewrite string_app_cons in Hpost. by injection Hpost.
      * split; [done|]. intros [post Hpost].
        rewrite string_app_cons in Hpost. by injection Hpost.
Qed.

End PyStrings.

(** X1: splitting at a separator and joining the pieces with it gives the
    string back; there is at least one piece and no piece holds the
    separator. *)
Theorem split_join_round_trip (sep : ascii) (s : string) :
  join_with sep (Py.split sep s) = s
  ∧ Py.split sep s ≠ []
  ∧ Forall (λ piece, has_char sep piece = false) (Py.split sep s).
Proof.
  split; [|split; [apply split_nonempty|]].
  - induction s as [|c s IH]; simpl; [done|].
    destruct (Ascii.eqb_spec c sep) as [->|Hne].
    + rewrite join_with_cons by apply split_nonempty. by rewrite IH.
    + pose proof (split_nonempty sep s) as Hnil.
      destruct (Py.split sep s) as [|piece [|next pieces]]; [done|..].
      * simpl in *. by rewrite IH.
      * rewrite join_with_cons by done. rewrite join_with_cons in IH by done.
        by rewrite string_app_cons, IH.
  - induction s as [|c s IH]; simpl; [by repeat constructor|].
    destruct (Ascii.eqb c sep) eqn:Hc; [by constructor|].
    pose proof (split_nonempty sep s) as Hnil.
    destruct (Py.split sep s) as [|piece pieces]; [done|].
    apply Forall_cons in IH as [Hpiece Hpieces].
    constructor; [|done]. simpl. by rewrite Hc.
Qed.

(** X2: the substring test answers true exactly when the string is some
    text, then the needle, then some text. *)
Theorem contains_iff_infix (needle s : string) :
  Py.contains needle s = true ↔ ∃ pre post, s = pre +:+ needle +:+ post.
Proof.
  induction s as [|a s IH]; cbn [Py.contains].
  - rewrite orb_false_r, prefix_spec. split.
    + intros [post Hpost]. by exists "", post.
    + intros (pre & post & Heq). destruct pre as [|b pre]; [by exists post|].
      by rewrite string_app_cons in Heq.
  - rewrite orb_true_iff, prefix_spec, IH. split.
    + intros [[post Hpost]|(pre & post & Heq)].
      * by exists "", post.
      * exists (String a pre), post. by rewrite string_app_cons, Heq.
    + intros (pre & post & Heq). destruct pre as [|b pre].
      * left. by exists post.
      * right. rewrite string_app_cons in Heq. injection Heq as _ Heq.
        by exists pre, post.
Qed.

(** X3: stripping a character from the right removes a run of that
    character at the end, and what is left does not end with it. *)
Theorem rstrip_removes_trailing (c : ascii) (s : string) :
  (∃ k, s = Py.rstrip c s +:+ repeat_char k c)
  ∧ (∀ t, Py.rstrip c s ≠ t +:+ String c EmptyString).
Proof.
  split.
  - induction s as [|a s [k IH]]; simpl; [by exists 0|].
    destruct (Py.rstrip c s) as [|b r] eqn:Hr.
    + destruct (Ascii.eqb_spec a c) as [->|Hne].
      * exists (S k). simpl. by rewrite IH.
      * exists k. rewrite string_app_cons. by rewrite IH.
    + exists k. rewrite string_app_cons. by rewrite <-IH.
  - induction s as [|a s IH]; simpl; intros t Heq.
    + destruct t; discriminate.
    + destruct (Py.rstrip c s) as [|b r] eqn:Hr.
      * destruct (Ascii.eqb_spec a c) as [->|Hne].
        -- destruct t; discriminate.
        -- destruct t as [|x t].
           ++ injection Heq as Heq. done.
           ++ rewrite string_app_cons in Heq. injection Heq as _ Heq.
              destruct t; discriminate.
      * destruct t as [|a' t]; [simplify_eq/=|].
        rewrite string_app_cons in Heq. injection Heq as _ Heq.
        by apply (IH t).
Qed.

(** * haveNmcli, getWifiUUID and isConnected (lines 25-67) *)

(** X4: haveNmcli answers whether nmcli is installed and never raises or
    exits: the FileNotFoundError of a missing binary is caught.  It starts
    nmcli once and, when that worked, waits for it. *)
Theorem haveNmcli_reports_installed (w : World) (h : list event) :
  haveNmcli w h
  = (Ok (installed w "nmcli"),
     Popen (popen_count h) ["nmcli"]
     :: (if installed w "nmcli" then [Communicate (popen_count h) None]
         else [])).
Proof.
  unfold haveNmcli, try_except. unfold_script.
  by destruct (installed w "nmcli").
Qed.

Section Listings.

Variable w : World.

Lemma popen_listing h :
  installed w "nmcli" = true →
  popen w ["nmcli"; "-t"; "con"] h
  = (Ok (popen_count h), [Popen (popen_count h) ["nmcli"; "-t"; "con"]]).
Proof. intros Hnm. unfold popen. unfold_script. by rewrite Hnm. Qed.

Lemma communicate_listing h :
  communicate w (popen_count h) None
    (h ++ [Popen (popen_count h) ["nmcli"; "-t"; "con"]])
  = (Ok (proc_stdout w (h ++ listing_call h)),
     [Communicate (popen_count h) None]).
Proof.
  unfold communicate, listing_call. unfold_script.
  by rewrite <-(assoc_L (++)).
Qed.

(** getWifiUUID is the listing call followed by the scan of its lines. *)
Lemma getWifiUUID_scan h (r : outcome (option string)) evs :
  installed w "nmcli" = true →
  (∀ h', for_each (listing_read w h) getWifiUUID_body None h' = (r, evs)) →
  getWifiUUID w h
  = match r with
    | Ok (Some uuid) => (Ok uuid, listing_call h ++ evs)
    | Ok None =>
        (Exit (-1)%Z,
         listing_call h ++ evs ++ [Print "No Tello WiFi network found"])
    | Exit c => (Exit c, listing_call h ++ evs)
    | Raise e => (Raise e, listing_call h ++ evs)
    | OutOfFuel => (OutOfFuel, listing_call h ++ evs)
    end.
Proof.
  intros Hnm Hscan. unfold getWifiUUID.
  assert (∀ (res : outcome string) tail,
    (∀ h', (uuid ← for_each (listing_read w h) getWifiUUID_body None;
            match uuid with
            | None => print "No Tello WiFi network found";; sys_exit (-1)%Z
            | Some uuid => mret uuid
            end) h' = (res, tail)) →
    (netProc ← popen w ["nmcli"; "-t"; "con"];
     out ← communicate w netProc None;
     let nets := Py.rstrip Py.newline (Py.decode_utf8 out) in
     uuid ← for_each (Py.split Py.newline nets) getWifiUUID_body None;
     match uuid with
     | None => print "No Tello WiFi network found";; sys_exit (-1)%Z
     | Some uuid => mret uuid
     end) h = (res, listing_call h ++ tail)) as Hcall.
  { intros res tail Hrest.
    eapply bind_ok; [by apply popen_listing| |reflexivity].
    eapply bind_ok; [apply communicate_listing| |reflexivity].
    apply Hrest. }
  destruct r as [[uuid|]|c|e|]; apply Hcall; intros h'.
  - eapply bind_ok; [apply Hscan|reflexivity|by rewrite app_nil_r].
  - eapply bind_ok; [apply Hscan|reflexivity|reflexivity].
  - by apply bind_exit.
  - by apply bind_raise.
  - by apply bind_out_of_fuel.
Qed.

Lemma four_fields_split net :
  four_fields net →
  ∃ name nuuid typ dev, Py.split Py.colon net = [name; nuuid; typ; dev].
Proof.
  unfold four_fields.
  destruct (Py.split Py.colon net) as [|name [|nuuid [|typ [|dev [|? ?]]]]];
    try done.
  intros _. by exists name, nuuid, typ, dev.
Qed.

Lemma scan_no_profile nets (uuid : option string) h :
  Forall four_fields nets → tello_profiles nets = 0 →
  for_each nets getWifiUUID_body uuid h = (Ok uuid, []).
Proof.
  intros Hall. revert h.
  induction Hall as [|net nets Hnet _ IH]; intros h Hcount; [done|].
  rewrite tello_profiles_cons in Hcount.
  pose proof (getWifiUUID_body_cases uuid net h) as Hbody.
  unfold is_tello_profile in Hcount.
  destruct (four_fields_split net Hnet) as (name & nuuid & typ & dev & Hsplit).
  rewrite Hsplit in Hbody, Hcount.
  destruct (Py.contains "TELLO" name); [simpl in Hcount; lia|].
  simpl. eapply bind_ok; [exact Hbody|apply IH; simpl in Hcount; lia|done].
Qed.

Lemma scan_one_profile nets :
  Forall four_fields nets → tello_profiles nets = 1 →
  ∃ net name nuuid typ dev,
    net ∈ nets
    ∧ Py.split Py.colon net = [name; nuuid; typ; dev]
    ∧ Py.contains "TELLO" name = true
    ∧ ∀ h, for_each nets getWifiUUID_body None h = (Ok (Some nuuid), []).
Proof.
  intros Hall.
  induction Hall as [|net nets Hnet Hnets IH]; intros Hcount.
  { unfold tello_profiles in Hcount. simpl in Hcount. lia. }
  rewrite tello_profiles_cons in Hcount.
  pose proof (getWifiUUID_body_cases None net) as Hbody.
  unfold is_tello_profile in Hcount.
  destruct (four_fields_split net Hnet) as (name & nuuid & typ & dev & Hsplit).
  rewrite Hsplit in Hbody, Hcount.
  destruct (Py.contains "TELLO" name) eqn:Hname.
  - exists net, name, nuuid, typ, dev.
    split; [apply elem_of_cons; by left|]. split; [done|]. split; [done|].
    intros h. simpl. eapply bind_ok; [apply Hbody| |done].
    apply scan_no_profile; [done|]. simpl in Hcount. lia.
  - destruct IH as (net' & name' & nuuid' & typ' & dev' & Hin
                    & Hsplit' & Hname' & Hrun);
      [simpl in Hcount; lia|].
    exists net', name', nuuid', typ', dev'.
    split; [apply elem_of_cons; by right|]. split; [done|]. split; [done|].
    intros h. simpl. eapply bind_ok; [apply Hbody|apply Hrun|done].
Qed.

Lemma isConnected_body_cases uuid (connected : bool) net h :
  match Py.split Py.colon net with
  | [_; _; _; _] =>
      isConnected_body uuid connected net h
      = if connected_line uuid net then (Ok true, [connected_message net])
        else (Ok connected, [])
  | _ => isConnected_body uuid connected net h = (Raise "ValueError", [])
  end.
Proof.
  unfold isConnected_body, connected_line, connected_message, profile_name.
  destruct (Py.split Py.colon net) as [|name [|nuuid [|typ [|dev [|? ?]]]]];
    try reflexivity.
  unfold unpack4. unfold_script.
  by destruct (bool_decide (uuid = nuuid)), (bool_decide (0 < String.length dev)).
Qed.

Lemma scan_connected uuid nets (connected : bool) h :
  Forall four_fields nets →
  for_each nets (isConnected_body uuid) connected h
  = (Ok (connected || existsb (connected_line uuid) nets),
     connected_message <$> filter (λ net, connected_line uuid net = true) nets).
Proof.
  intros Hall. revert connected h.
  induction Hall as [|net nets Hnet _ IH]; intros connected h.
  { simpl. by rewrite orb_false_r. }
  pose proof (isConnected_body_cases uuid connected net h) as Hbody.
  destruct (four_fields_split net Hnet) as (name & nuuid & typ & dev & Hsplit).
  rewrite Hsplit in Hbody. simpl.
  destruct (connected_line uuid net) eqn:Hline.
  - rewrite filter_cons_True by done. simpl orb. rewrite orb_true_r.
    eapply bind_ok; [exact Hbody|rewrite IH; reflexivity|reflexivity].
  - rewrite filter_cons_False by (by rewrite Hline).
    eapply bind_ok; [exact Hbody|apply IH|done].
Qed.

Lemma scan_connected_malformed uuid nets (connected : bool) :
  Exists (λ net, ¬ four_fields net) nets →
  ∃ evs, ∀ h, for_each nets (isConnected_body uuid) connected h
              = (Raise "ValueError", evs).
Proof.
  intros Hex. revert connected.
  induction Hex as [net nets Hnet|net nets _ IH]; intros connected.
  - pose proof (isConnected_body_cases uuid connected net) as Hbody.
    unfold four_fields in Hnet.
    destruct (Py.split Py.colon net) as [|name [|nuuid [|typ [|dev [|? ?]]]]];
      try (exists []; intros h; simpl; by apply bind_raise).
  - pose proof (isConnected_body_cases uuid connected net) as Hbody.
    destruct (Py.split Py.colon net) as [|name [|nuuid [|typ [|dev [|? ?]]]]];
      try (exists []; intros h; simpl; by apply bind_raise).
    destruct (connected_line uuid net).
    + destruct (IH true) as [evs Hrun].
      eexists. intros h. simpl. by eapply bind_ok.
    + destruct (IH connected) as [evs Hrun].
      eexists. intros h. simpl. by eapply bind_ok.
Qed.

Lemma isConnected_unfold uuid h (r : outcome bool) evs :
  installed w "nmcli" = true →
  (∀ h', for_each (listing_read w h) (isConnected_body uuid) false h'
         = (r, evs)) →
  isConnected w uuid h = (r, listing_call h ++ evs).
Proof.
  intros Hnm Hscan. unfold isConnected.
  eapply bind_ok; [by apply popen_listing| |reflexivity].
  eapply bind_ok; [apply communicate_listing|apply Hscan|reflexivity].
Qed.

End Listings.

(** X5: getWifiUUID on a listing of four-field lines none of which has
    TELLO in its name prints that no network was found and exits with -1. *)
Theorem getWifiUUID_none_found (w : World) (h : list event) :
  installed w "nmcli" = true →
  Forall four_fields (listing_read w h) →
  tello_profiles (listing_read w h) = 0 →
  getWifiUUID w h
  = (Exit (-1)%Z,
     listing_call h ++ [Print "No Tello WiFi network found"]).
Proof.
  intros Hnm Hall Hcount.
  rewrite (getWifiUUID_scan w h (Ok None) []); [done|done|].
  intros h'. by apply scan_no_profile.
Qed.

Lemma getWifiUUID_none_found_witness :
  getWifiUUID no_tello_world []
  = (Exit (-1)%Z,
     listing_call [] ++ [Print "No Tello WiFi network found"]).
Proof.
  apply (getWifiUUID_none_found no_tello_world []);
    [reflexivity | vm_compute; repeat constructor | vm_compute; reflexivity].
Defined.

(** X6: getWifiUUID on a listing of four-field lines exactly one of which
    has TELLO in its name returns the second field of that line and prints
    nothing. *)
Theorem getWifiUUID_unique (w : World) (h : list event) :
  installed w "nmcli" = true →
  Forall four_fields (listing_read w h) →
  tello_profiles (listing_read w h) = 1 →
  ∃ net name uuid typ dev,
    net ∈ listing_read w h
    ∧ Py.split Py.colon net = [name; uuid; typ; dev]
    ∧ Py.contains "TELLO" name = true
    ∧ getWifiUUID w h = (Ok uuid, listing_call h).
Proof.
  intros Hnm Hall Hcount.
  destruct (scan_one_profile (listing_read w h) Hall Hcount)
    as (net & name & uuid & typ & dev & Hin & Hsplit & Hname & Hrun).
  exists net, name, uuid, typ, dev.
  split; [done|]. split; [done|]. split; [done|].
  rewrite (getWifiUUID_scan w h (Ok (Some uuid)) []); [|done|done].
  by rewrite app_nil_r.
Qed.

Lemma getWifiUUID_unique_witness :
  ∃ net name uuid typ dev,
    net ∈ listing_read demo_world []
    ∧ Py.split Py.colon net = [name; uuid; typ; dev]
    ∧ Py.contains "TELLO" name = true
    ∧ getWifiUUID demo_world [] = (Ok uuid, listing_call []).
Proof.
  apply (getWifiUUID_unique demo_world []);
    [reflexivity | vm_compute; repeat constructor | vm_compute; reflexivity].
Defined.

(** X7: getWifiUUID on a listing that is empty once its trailing newlines
    are stripped raises the ValueError of the unpacking (the one empty
    line has one field) and prints nothing: it does not report that no
    network was found. *)
Theorem getWifiUUID_empty_listing (w : World) (h : list event) :
  installed w "nmcli" = true →
  Py.rstrip Py.newline (proc_stdout w (h ++ listing_call h)) = "" →
  getWifiUUID w h = (Raise "ValueError", listing_call h).
Proof.
  intros Hnm Hempty.
  rewrite (getWifiUUID_scan w h (Raise "ValueError") []); [|done|].
  { by rewrite app_nil_r. }
  intros h'. unfold listing_read, listing_lines, Py.decode_utf8.
  by rewrite Hempty.
Qed.

Lemma getWifiUUID_empty_listing_witness :
  getWifiUUID silent_world [] = (Raise "ValueError", listing_call []).
Proof.
  apply (getWifiUUID_empty_listing silent_world []);
    [reflexivity | vm_compute; reflexivity].
Defined.

(** X8: isConnected on a listing of four-field lines returns whether some
    line names the given uuid with a non-empty device field, and prints
    the connected-to message for every such line, in the order of the
    listing. *)
Theorem isConnected_four_fields (w : World) (uuid : string) (h : list event) :
  installed w "nmcli" = true →
  Forall four_fields (listing_read w h) →
  isConnected w uuid h
  = (Ok (existsb (connected_line uuid) (listing_read w h)),
     listing_call h
     ++ (connected_message
           <$> filter (λ net, connected_line uuid net = true)
                      (listing_read w h))).
Proof.
  intros Hnm Hall. apply isConnected_unfold; [done|].
  intros h'. by rewrite scan_connected.
Qed.

Lemma isConnected_four_fields_witness :
  isConnected connected_world "uuid-1" []
  = (Ok (existsb (connected_line "uuid-1") (listing_read connected_world [])),
     listing_call []
     ++ (connected_message
           <$> filter (λ net, connected_line "uuid-1" net = true)
                      (listing_read connected_world []))).
Proof.
  apply (isConnected_four_fields connected_world "uuid-1" []);
    [reflexivity | vm_compute; repeat constructor].
Defined.

Example isConnected_connected_world :
  isConnected connected_world "uuid-1" []
  = (Ok true,
     [Popen 0 ["nmcli"; "-t"; "con"]; Communicate 0 None;
      Print ("Connected to " +:+ Py.dquote +:+ "TELLO-AB12" +:+ Py.dquote)]).
Proof. vm_compute. reflexivity. Qed.

(** X9: isConnected has no early exit: a line anywhere in the listing that
    does not have four fields makes it raise the ValueError of the
    unpacking, whatever the other lines say. *)
Theorem isConnected_malformed_line (w : World) (uuid : string)
    (h : list event) :
  installed w "nmcli" = true →
  Exists (λ net, ¬ four_fields net) (listing_read w h) →
  ∃ evs, isConnected w uuid h = (Raise "ValueError", listing_call h ++ evs).
Proof.
  intros Hnm Hex.
  destruct (scan_connected_malformed uuid (listing_read w h) false Hex)
    as [evs Hrun].
  exists evs. by apply isConnected_unfold.
Qed.

Lemma isConnected_malformed_line_witness :
  ∃ evs, isConnected silent_world "uuid-1" []
         = (Raise "ValueError", listing_call [] ++ evs).
Proof.
  apply (isConnected_malformed_line silent_world "uuid-1" []);
    [reflexivity | vm_compute; constructor; discriminate].
Defined.

(** * The steps of main before the socket (lines 70-97) *)

Section Prelude.

Variable w : World.

Lemma use_nmcli_installed h :
  installed w "nmcli" = true →
  use_nmcli w false false h
  = (Ok true, [Popen (popen_count h) ["nmcli"];
               Communicate (popen_count h) None]).
Proof.
  intros Hnm. unfold use_nmcli. simpl orb. cbv iota.
  eapply bind_ok; [by apply haveNmcli_installed|reflexivity|reflexivity].
Qed.

(** With nmcli installed and neither flag set, the prelude is the banner,
    the availability check and the association. *)
Lemma prelude_associate (r : outcome unit) evs :
  installed w "nmcli" = true →
  associate w [Print "Tello Test Program"; Popen 0 ["nmcli"];
               Communicate 0 None] = (r, evs) →
  prelude w false false []
  = (r, [Print "Tello Test Program"; Popen 0 ["nmcli"]; Communicate 0 None]
        ++ evs).
Proof.
  intros Hnm Hassoc. unfold prelude.
  eapply bind_ok; [reflexivity| |reflexivity].
  eapply bind_ok; [by apply use_nmcli_installed|exact Hassoc|reflexivity].
Qed.

Lemma popen_activation uuid h :
  installed w "nmcli" = true →
  popen w ["nmcli"; "con"; "up"; uuid] h
  = (Ok (popen_count h), [Popen (popen_count h) ["nmcli"; "con"; "up"; uuid]]).
Proof. intros Hnm. unfold popen. unfold_script. by rewrite Hnm. Qed.

Lemma wait_activation uuid h :
  wait w (popen_count h)
    (h ++ [Popen (popen_count h) ["nmcli"; "con"; "up"; uuid]])
  = (Ok (proc_returncode w (h ++ activation uuid h)),
     [Wait (popen_count h)]).
Proof.
  unfold wait, activation. unfold_script. by rewrite <-(assoc_L (++)).
Qed.

End Prelude.

(** X10: with neither flag set and nmcli not installed, the run exits with
    -1 right after the failed availability check and the message that
    nmcli cannot be found. *)
Theorem missing_nmcli_aborts (w : World) (fuel : nat) (cmds : list string) :
  installed w "nmcli" = false →
  run (main w fuel cmds false false)
  = (Exit (-1)%Z,
     [Print "Tello Test Program"; Popen 0 ["nmcli"];
      Print ("Cannot find " +:+ Py.dquote +:+ "nmcli" +:+ Py.dquote
             +:+ " to control NetworkManager")]).
Proof.
  intros Hnm. unfold run, main. apply bind_exit. unfold prelude.
  eapply bind_ok; [reflexivity| |reflexivity].
  apply bind_exit. unfold use_nmcli. simpl orb. cbv iota.
  assert (haveNmcli w ([] ++ [Print "Tello Test Program"])
          = (Ok false, [Popen 0 ["nmcli"]])) as Hhave.
  { unfold haveNmcli, try_except. unfold_script. by rewrite Hnm. }
  eapply bind_ok; [exact Hhave| |reflexivity].
  cbv iota. eapply bind_ok; reflexivity.
Qed.

Lemma missing_nmcli_aborts_witness :
  run (main no_nmcli_world 12 commandSequence false false)
  = (Exit (-1)%Z,
     [Print "Tello Test Program"; Popen 0 ["nmcli"];
      Print ("Cannot find " +:+ Py.dquote +:+ "nmcli" +:+ Py.dquote
             +:+ " to control NetworkManager")]).
Proof.
  apply (missing_nmcli_aborts no_nmcli_world 12 commandSequence).
  reflexivity.
Defined.

(** X11: when the steps before the socket do not end normally, the run
    ends the same way with their events and nothing else; these are
    prints, nmcli calls, waits and communicate without input only, so no
    socket exists and nothing was sent. *)
Theorem failed_prelude_ends_run (w : World) (fuel : nat)
    (cmds : list string) (disableNm simulate : bool) (r : outcome unit)
    (pre : list event) :
  prelude w disableNm simulate [] = (r, pre) →
  r ≠ Ok tt →
  run (main w fuel cmds disableNm simulate) = (r, pre)
  ∧ Forall is_association_event pre.
Proof.
  intros Hpre Hfail. split.
  - unfold run, main. destruct r as [[]|c|e|]; [done|..].
    + by apply bind_exit.
    + by apply bind_raise.
    + by apply bind_out_of_fuel.
  - destruct (prelude_events w disableNm simulate []) as [Hev _].
    by rewrite Hpre in Hev.
Qed.

Lemma failed_prelude_ends_run_witness :
  run (main no_tello_world 12 commandSequence false false)
  = (Exit (-1)%Z,
     [Print "Tello Test Program"; Popen 0 ["nmcli"]; Communicate 0 None;
      Popen 1 ["nmcli"; "-t"; "con"]; Communicate 1 None;
      Print "No Tello WiFi network found"])
  ∧ Forall is_association_event
      [Print "Tello Test Program"; Popen 0 ["nmcli"]; Communicate 0 None;
       Popen 1 ["nmcli"; "-t"; "con"]; Communicate 1 None;
       Print "No Tello WiFi network found"].
Proof.
  apply (failed_prelude_ends_run no_tello_world 12 commandSequence
           false false);
    [vm_compute; reflexivity | discriminate].
Defined.

(** X12: with NetworkManager in use, when getWifiUUID returns a profile
    and isConnected finds it connected, the steps before the socket end
    normally with the message that the drone is already connected, and no
    activation (nmcli con up) is started. *)
Theorem already_connected_skips_activation (w : World) (uuid : string)
    (t1 t2 : list event) :
  installed w "nmcli" = true →
  getWifiUUID w [Print "Tello Test Program"; Popen 0 ["nmcli"];
                 Communicate 0 None] = (Ok uuid, t1) →
  isConnected w uuid
    ([Print "Tello Test Program"; Popen 0 ["nmcli"]; Communicate 0 None]
     ++ t1 ++ [Print ("Drone WiFi: " +:+ uuid)]) = (Ok true, t2) →
  prelude w false false []
  = (Ok tt,
     [Print "Tello Test Program"; Popen 0 ["nmcli"]; Communicate 0 None]
     ++ t1 ++ [Print ("Drone WiFi: " +:+ uuid)] ++ t2
     ++ [Print "Already connected to drone"]).
Proof.
  intros Hnm Hget Hcon. apply prelude_associate; [done|].
  unfold associate.
  eapply bind_ok; [exact Hget| |reflexivity].
  eapply bind_ok; [reflexivity| |reflexivity].
  eapply bind_ok.
  - exact Hcon.
  - reflexivity.
  - reflexivity.
Qed.

Lemma already_connected_skips_activation_witness :
  prelude connected_world false false []
  = (Ok tt,
     [Print "Tello Test Program"; Popen 0 ["nmcli"]; Communicate 0 None]
     ++ [Popen 1 ["nmcli"; "-t"; "con"]; Communicate 1 None]
     ++ [Print ("Drone WiFi: " +:+ "uuid-1")]
     ++ [Popen 2 ["nmcli"; "-t"; "con"]; Communicate 2 None;
         Print ("Connected to " +:+ Py.dquote +:+ "TELLO-AB12" +:+ Py.dquote)]
     ++ [Print "Already connected to drone"]).
Proof.
  apply (already_connected_skips_activation connected_world "uuid-1");
    [reflexivity | vm_compute; reflexivity | vm_compute; reflexivity].
Defined.

(** X13: with NetworkManager in use, when getWifiUUID returns a profile
    and isConnected finds it not connected, main activates that profile
    (nmcli con up with the uuid found) and waits for it: a return code of
    0 ends the steps before the socket normally with the message
    Connected, and any other return code ends the run with the message
    FAILED and exit -1. *)
Theorem activation_outcome (w : World) (uuid : string) (t1 t2 : list event) :
  installed w "nmcli" = true →
  getWifiUUID w [Print "Tello Test Program"; Popen 0 ["nmcli"];
                 Communicate 0 None] = (Ok uuid, t1) →
  isConnected w uuid
    ([Print "Tello Test Program"; Popen 0 ["nmcli"]; Communicate 0 None]
     ++ t1 ++ [Print ("Drone WiFi: " +:+ uuid)]) = (Ok false, t2) →
  prelude w false false []
  = let before := before_activation uuid t1 t2 in
    let up := activation uuid before in
    if bool_decide (proc_returncode w (before ++ up) = 0%Z)
    then (Ok tt, before ++ up ++ [Print "  Connected"])
    else (Exit (-1)%Z, before ++ up ++ [Print "  FAILED"]).
Proof.
  intros Hnm Hget Hcon. cbv zeta.
  set (h0 := [Print "Tello Test Program"; Popen 0 ["nmcli"];
              Communicate 0 None]) in *.
  set (before := before_activation uuid t1 t2).
  assert (before = h0 ++ t1 ++ [Print ("Drone WiFi: " +:+ uuid)] ++ t2
                   ++ [Print "Connecting to Drone..."]) as Hbefore by done.
  assert (associate w h0
          = if bool_decide (proc_returncode w (before ++ activation uuid before)
                            = 0%Z)
            then (Ok tt,
                  t1 ++ [Print ("Drone WiFi: " +:+ uuid)] ++ t2
                  ++ [Print "Connecting to Drone..."]
                  ++ activation uuid before ++ [Print "  Connected"])
            else (Exit (-1)%Z,
                  t1 ++ [Print ("Drone WiFi: " +:+ uuid)] ++ t2
                  ++ [Print "Connecting to Drone..."]
                  ++ activation uuid before ++ [Print "  FAILED"]))
    as Hassoc.
  { unfold associate.
    assert (((((h0 ++ t1) ++ [Print ("Drone WiFi: " +:+ uuid)]) ++ t2)
             ++ [Print "Connecting to Drone..."]) = before) as Hhist.
    { rewrite Hbefore. by rewrite <-!(assoc_L (++)). }
    case_bool_decide as Hrc.
    - eapply bind_ok; [exact Hget| |reflexivity].
      eapply bind_ok; [reflexivity| |reflexivity].
      eapply bind_ok; [exact Hcon| |reflexivity].
      cbv iota.
      eapply bind_ok; [reflexivity| |reflexivity].
      rewrite Hhist.
      eapply bind_ok; [by apply popen_activation| |reflexivity].
      eapply bind_ok; [apply wait_activation| |reflexivity].
      rewrite bool_decide_true by done. reflexivity.
    - eapply bind_ok; [exact Hget| |reflexivity].
      eapply bind_ok; [reflexivity| |reflexivity].
      eapply bind_ok; [exact Hcon| |reflexivity].
      cbv iota.
      eapply bind_ok; [reflexivity| |reflexivity].
      rewrite Hhist.
      eapply bind_ok; [by apply popen_activation| |reflexivity].
      eapply bind_ok; [apply wait_activation| |reflexivity].
      rewrite bool_decide_false by done.
      eapply bind_ok; reflexivity. }
  case_bool_decide as Hrc.
  - rewrite (prelude_associate w _ _ Hnm Hassoc).
    f_equal. rewrite Hbefore. by rewrite <-!(assoc_L (++)).
  - rewrite (prelude_associate w _ _ Hnm Hassoc).
    f_equal. rewrite Hbefore. by rewrite <-!(assoc_L (++)).
Qed.

Lemma activation_outcome_witness :
  prelude refusing_world false false []
  = let before :=
      before_activation "uuid-1"
        [Popen 1 ["nmcli"; "-t"; "con"]; Communicate 1 None]
        [Popen 2 ["nmcli"; "-t"; "con"]; Communicate 2 None] in
    let up := activation "uuid-1" before in
    if bool_decide (proc_returncode refusing_world (before ++ up) = 0%Z)
    then (Ok tt, before ++ up ++ [Print "  Connected"])
    else (Exit (-1)%Z, before ++ up ++ [Print "  FAILED"]).
Proof.
  apply (activation_outcome refusing_world "uuid-1");
    [reflexivity | vm_compute; reflexivity | vm_compute; reflexivity].
Defined.

Example refusing_world_run :
  run (main refusing_world 12 commandSequence false false)
  = (Exit (-1)%Z,
     [Print "Tello Test Program"; Popen 0 ["nmcli"]; Communicate 0 None;
      Popen 1 ["nmcli"; "-t"; "con"]; Communicate 1 None;
      Print "Drone WiFi: uuid-1";
      Popen 2 ["nmcli"; "-t"; "con"]; Communicate 2 None;
      Print "Connecting to Drone...";
      Popen 3 ["nmcli"; "con"; "up"; "uuid-1"]; Wait 3;
      Print "  FAILED"]).
Proof. vm_compute. reflexivity. Qed.

(** * What main does from the socket on (lines 99-157) *)

Section SessionEvents.

Variable w : World.
Variable cmds : list string.

Lemma loop_body_loop_events simulate vidFname st :
  pendingCommands st ⊆ cmds →
  only (loop_event cmds) (λ st', pendingCommands st' ⊆ cmds)
    (loop_body w simulate vidFname st).
Proof.
  intros Hsub. destruct st as [run [|cmd rest] vp]; simpl in Hsub.
  { intros h. rewrite loop_body_empty. split; [constructor|].
    by intros st' [= <-]. }
  assert (cmd ∈ cmds) as Hcmd by (apply Hsub; by left).
  assert (rest ⊆ cmds) as Hrest by (intros c Hc; apply Hsub; by right).
  unfold loop_body. cbn [pendingCommands length].
  rewrite bool_decide_true by lia.
  cbn [lookup list_lookup delete list_delete running vidProc].
  eapply (only_bind _ (λ _, True)); [by apply only_emit|intros _ _].
  eapply (only_bind _ (λ _, True)).
  { destruct simulate; simpl negb; cbv iota; [by apply only_mret|].
    eapply (only_bind _ (λ _, True)); [by apply only_emit|intros _ _].
    eapply (only_bind _ (λ _, True)); [|intros ? _; by apply only_mret].
    unfold sock_recvfrom.
    eapply (only_bind _ (λ _, True)); [by apply only_history|intros h _].
    eapply (only_bind _ (λ _, True)); [|intros ? _; by apply only_mret].
    apply only_emit; [|done].
    split; [|done]. split; [done|apply substring_length]. }
  intros resp _.
  eapply (only_bind _ (λ _, True)); [by apply only_emit|intros _ _].
  destruct (bool_decide (cmd = "streamon") && negb simulate).
  - eapply (only_bind _ (λ _, True)).
    { apply only_emit; [|done]. split; [by left|done]. }
    intros _ _. unfold popen.
    eapply (only_bind _ (λ _, True)); [|intros ? _; by apply only_mret].
    eapply (only_bind _ (λ _, True)); [by apply only_history|intros h _].
    eapply (only_bind _ (λ _, True)); [by apply only_emit|intros _ _].
    destruct (installed w _); [by apply only_mret|apply only_raise].
  - by apply only_mret.
Qed.

(** The part of the session that follows the socket set-up. *)
Lemma after_socket_events fuel simulate :
  only (loop_event cmds) (λ _, True)
    (vidFname ← reserve_name w fuel;
     st ← command_loop w fuel simulate vidFname cmds;
     close_video w (vidProc st)).
Proof.
  eapply (only_bind _ (λ _, True)).
  { unfold reserve_name, reserve_count. only_steps. }
  intros vidFname _.
  eapply (only_bind _ (λ _, True)).
  { unfold command_loop.
    eapply only_weaken; [done|done|].
    apply (only_while _ (λ st, pendingCommands st ⊆ cmds)); [|done].
    intros st Hst. by apply loop_body_loop_events. }
  intros st _. unfold close_video, communicate, sleep, print.
  destruct (vidProc st); [|by apply only_mret].
  eapply (only_bind _ (λ _, True)).
  { apply only_emit; [|done]. split; [by right|done]. }
  intros _ _.
  eapply (only_bind _ (λ _, True)); [by apply only_emit|intros _ _].
  eapply (only_bind _ (λ _, True)); [|intros ? _; by apply only_mret].
  eapply (only_bind _ (λ _, True)); [by apply only_emit|intros _ _].
  eapply (only_bind _ (λ _, True)); [by apply only_history|intros h _].
  by apply only_mret.
Qed.

Lemma session_events fuel simulate :
  only (session_event cmds) (λ _, True) (session w fuel cmds simulate).
Proof.
  unfold session.
  eapply (only_bind _ (λ _, True)).
  { unfold open_socket, socket_socket, sock_bind. only_steps. }
  intros _ _.
  eapply only_weaken; [|done|apply after_socket_events].
  by intros e [He _].
Qed.

Lemma bind_ok_events {A B} (m : M A) (f : A → M B) h a t1 :
  m h = (Ok a, t1) → ((m ≫= f) h).2 = t1 ++ (f a (h ++ t1)).2.
Proof.
  intros Hm. unfold mbind, M_bind. rewrite Hm.
  by destruct (f a (h ++ t1)).
Qed.

(** The session is the socket set-up of live mode followed by events
    among which there is no further set-up. *)
Lemma session_set_up_once fuel simulate h :
  ∃ rest,
    (session w fuel cmds simulate h).2
    = (if simulate then [] else [Socket; Bind "" 9000%Z]) ++ rest
    ∧ Forall (loop_event cmds) rest.
Proof.
  unfold session. destruct simulate.
  - rewrite (bind_ok_events _ _ h tt [] (open_socket_simulate h)).
    eexists. split; [reflexivity|]. apply after_socket_events.
  - rewrite (bind_ok_events _ _ h tt _ (open_socket_live h)).
    eexists. split; [reflexivity|]. apply after_socket_events.
Qed.

End SessionEvents.

(** X14: every run, whatever the world, the flags, the queue and the fuel,
    is a first part of prints, nmcli calls, waits and communicate without
    input, followed either by nothing or, in live mode only, by the
    creation of the socket and its binding to port 9000 on all addresses,
    and then by events among which no socket is created or bound again,
    every process started is ffmpeg, communicate always feeds q, nothing
    is waited for, every datagram is a command of the queue sent to
    192.168.10.1:8889, every receive uses a buffer of 1518 and keeps at
    most 1518 bytes, and every sleep lasts 5 or 2.  So all NetworkManager
    activity is over before the one socket is created. *)
Theorem association_precedes_session (w : World) (fuel : nat)
    (cmds : list string) (disableNm simulate : bool) :
  ∃ pre rest,
    Forall is_association_event pre
    ∧ Forall (loop_event cmds) rest
    ∧ ((run (main w fuel cmds disableNm simulate)).2 = pre
       ∨ (run (main w fuel cmds disableNm simulate)).2
         = pre ++ (if simulate then [] else [Socket; Bind "" 9000%Z]) ++ rest).
Proof.
  unfold run, main, mbind, M_bind.
  destruct (prelude_events w disableNm simulate []) as [Hpre _].
  destruct (prelude w disableNm simulate []) as [[[]|c|e|] pre];
    try (exists pre, []; split; [done|]; split; [constructor|by left]).
  destruct (session_set_up_once w cmds fuel simulate ([] ++ pre))
    as (rest & Hses & Hrest).
  destruct (session w fuel cmds simulate ([] ++ pre)) as [r evs].
  simpl in Hses. subst evs. exists pre, rest.
  split; [done|]. split; [done|]. by right.
Qed.

(** X15: with the no-NetworkManager flag set, whatever the world, the
    other flag, the queue and the fuel, no event of the run is an nmcli
    call or a wait: the only processes ever started are ffmpeg, and the
    only communicate feeds q. *)
Theorem no_nm_never_calls_nmcli (w : World) (fuel : nat)
    (cmds : list string) (simulate : bool) (h : list event) :
  Forall (session_event cmds) (main w fuel cmds true simulate h).2.
Proof.
  assert (only (session_event cmds) (λ _, True)
            (main w fuel cmds true simulate)) as Honly.
  { unfold main. eapply (only_bind _ (λ _, True)).
    - intros h'. rewrite prelude_skipped by done.
      split; [by repeat constructor|done].
    - intros _ _. apply session_events. }
  apply Honly.
Qed.

Section LiveRuns.

Variable w : World.
Variable vidFname : string.

Lemma started_app evs1 evs2 : started (evs1 ++ evs2) = started evs1 ++ started evs2.
Proof. apply omap_app. Qed.

Lemma live_block_started cmd block :
  live_block vidFname cmd block →
  (cmd ≠ "streamon" ∧ started block = [])
  ∨ (cmd = "streamon" ∧ ∃ pid, started block = [pid]).
Proof.
  intros [cmd' data Hcmd|data pid]; [by left|right]. split; [done|].
  by exists pid.
Qed.

Lemma live_blocks_started_nil cmds blocks :
  Forall2 (live_block vidFname) cmds blocks →
  started (concat blocks) = [] ↔ "streamon" ∉ cmds.
Proof.
  induction 1 as [|cmd block cmds blocks Hblock _ IH]; simpl.
  { split; [intros _; apply not_elem_of_nil|done]. }
  rewrite started_app, not_elem_of_cons.
  destruct (live_block_started cmd block Hblock)
    as [[Hcmd ->]|[-> [pid ->]]]; simpl.
  - rewrite IH. split; [by intros ?|by intros [_ ?]].
  - split; [done|]. by intros [? _].
Qed.

(** The loop in live mode with the capture binary installed: it ends
    with the handle of the process started last, if any. *)
Lemma while_live_done cmds fuel vp h :
  installed w "ffmpeg" = true →
  length cmds + 2 ≤ fuel →
  ∃ blocks,
    while fuel running (loop_body w false vidFname)
      {| running := true; pendingCommands := cmds; vidProc := vp |} h
    = (Ok {| running := false; pendingCommands := [];
             vidProc := match last (started (concat blocks)) with
                        | Some proc => Some proc
                        | None => vp
                        end |},
       concat blocks)
    ∧ Forall2 (live_block vidFname) cmds blocks.
Proof.
  intros Hff. revert fuel vp h.
  induction cmds as [|cmd cmds IH]; intros fuel vp h Hfuel.
  - exists []. split; [|constructor].
    destruct fuel as [|[|fuel]]; [simpl in Hfuel; lia..|].
    rewrite while_step by done.
    eapply bind_ok; [apply loop_body_empty | by apply while_stop | done].
  - destruct fuel as [|fuel]; [simpl in Hfuel; lia|].
    rewrite while_step by done.
    destruct (decide (cmd = "streamon")) as [->|Hcmd].
    + pose proof (loop_body_streamon_eq w vidFname true cmds vp h) as Hbody.
      rewrite Hff in Hbody. cbv zeta in Hbody.
      set (block := exchange "streamon" (received w "streamon" h)
                    ++ [Sleep 5; Popen (popen_count h) (ffmpeg_args vidFname)])
        in *.
      destruct (IH fuel (Some (popen_count h)) (h ++ block))
        as (blocks & Hrun & Hblocks); [simpl in Hfuel; lia|].
      exists (block :: blocks). split; [|constructor; [constructor|done]].
      assert (match last (started (concat (block :: blocks))) with
              | Some proc => Some proc
              | None => vp
              end
              = match last (started (concat blocks)) with
                | Some proc => Some proc
                | None => Some (popen_count h)
                end) as ->.
      { change (concat (block :: blocks)) with (block ++ concat blocks).
        rewrite started_app, last_app.
        by destruct (last (started (concat blocks))). }
      eapply bind_ok; [exact Hbody|exact Hrun|done].
    + pose proof (loop_body_plain_eq w vidFname true cmd cmds vp h Hcmd)
        as Hbody.
      destruct (IH fuel vp (h ++ exchange cmd (received w cmd h)))
        as (blocks & Hrun & Hblocks); [simpl in Hfuel; lia|].
      exists (exchange cmd (received w cmd h) :: blocks).
      split; [|constructor; [by constructor|done]].
      assert (last (started (concat (exchange cmd (received w cmd h) :: blocks)))
              = last (started (concat blocks))) as ->.
      { change (concat (exchange cmd (received w cmd h) :: blocks))
          with (exchange cmd (received w cmd h) ++ concat blocks).
        rewrite started_app, last_app.
        by destruct (last (started (concat blocks))). }
      eapply bind_ok; [exact Hbody|exact Hrun|done].
Qed.

(** The loop in live mode without the capture binary: it stops at the
    first streamon. *)
Lemma while_ffmpeg_missing before after fuel vp h :
  installed w "ffmpeg" = false →
  "streamon" ∉ before →
  length before + 1 ≤ fuel →
  ∃ blocks data pid,
    while fuel running (loop_body w false vidFname)
      {| running := true; pendingCommands := before ++ "streamon" :: after;
         vidProc := vp |} h
    = (Raise "FileNotFoundError",
       concat blocks ++ exchange "streamon" data
       ++ [Sleep 5; Popen pid (ffmpeg_args vidFname)])
    ∧ Forall2 (live_block vidFname) before blocks.
Proof.
  intros Hff. revert fuel vp h.
  induction before as [|cmd before IH]; intros fuel vp h Hnot Hfuel.
  - destruct fuel as [|fuel]; [simpl in Hfuel; lia|].
    exists [], (received w "streamon" h), (popen_count h).
    split; [|constructor]. simpl app. rewrite while_step by done.
    apply bind_raise. rewrite loop_body_streamon_eq, Hff. reflexivity.
  - destruct fuel as [|fuel]; [simpl in Hfuel; lia|].
    apply not_elem_of_cons in Hnot as [Hcmd Hnot].
    destruct (IH fuel vp (h ++ exchange cmd (received w cmd h)) Hnot)
      as (blocks & data & pid & Hrun & Hblocks); [simpl in Hfuel; lia|].
    exists (exchange cmd (received w cmd h) :: blocks), data, pid.
    split; [|constructor; [by constructor|done]].
    simpl app. rewrite while_step by done.
    eapply bind_ok; [by apply loop_body_plain_eq|exact Hrun|].
    reflexivity.
Qed.



End LiveRuns.

(** X16: in live mode with the capture binary installed, enough fuel and
    the steps before the socket ended normally, every queue is run to its
    end and the run ends normally: after the socket set-up come the events
    of the loop, with one turn on the wire per command in queue order and
    one capture start per streamon, and then, exactly when streamon is in
    the queue, the delay of 2, the closing message and communicate with q
    on the process that was started last. *)
Theorem live_run_closes_last_capture (w : World) (fuel : nat)
    (cmds : list string) (disableNm : bool) (pre : list event) :
  installed w "ffmpeg" = true →
  size (files w) < fuel →
  length cmds + 2 ≤ fuel →
  prelude w disableNm false [] = (Ok tt, pre) →
  ∃ evs,
    run (main w fuel cmds disableNm false)
    = (Ok tt, pre ++ [Socket; Bind "" 9000%Z] ++ evs ++ closing evs)
    ∧ datagrams evs = cmds ≫= turn
    ∧ capture_starts evs = length (filter (λ cmd, cmd = "streamon") cmds)
    ∧ (closing evs = [] ↔ "streamon" ∉ cmds).
Proof.
  intros Hff Hfiles Hfuel Hpre.
  destruct (reserve_name_spec w fuel (pre ++ [Socket; Bind "" 9000%Z]) Hfiles)
    as (n & Hname & _).
  destruct (while_live_done w (vidFname_of n) cmds fuel None
              ((pre ++ [Socket; Bind "" 9000%Z]) ++ []) Hff Hfuel)
    as (blocks & Hloop & Hblocks).
  exists (concat blocks). split; [|split; [|split]].
  - apply main_after_prelude; [done|]. unfold session.
    eapply bind_ok; [apply open_socket_live| |reflexivity].
    eapply bind_ok; [exact Hname| |reflexivity].
    eapply bind_ok; [exact Hloop| |reflexivity].
    cbn [vidProc]. unfold closing.
    destruct (last (started (concat blocks))) as [proc|].
    + apply close_video_some.
    + apply close_video_none.
  - by eapply live_blocks_datagrams.
  - by eapply live_blocks_starts.
  - rewrite <-(live_blocks_started_nil (vidFname_of n) cmds blocks Hblocks).
    rewrite <-(last_None (started (concat blocks))). unfold closing.
    destruct (last (started (concat blocks))); split; by intros ?.
Qed.

Lemma live_run_closes_last_capture_witness :
  ∃ evs,
    run (main demo_world 12 commandSequence false false)
    = (Ok tt,
       [Print "Tello Test Program";
        Popen 0 ["nmcli"]; Communicate 0 None;
        Popen 1 ["nmcli"; "-t"; "con"]; Communicate 1 None;
        Print "Drone WiFi: uuid-1";
        Popen 2 ["nmcli"; "-t"; "con"]; Communicate 2 None;
        Print "Connecting to Drone...";
        Popen 3 ["nmcli"; "con"; "up"; "uuid-1"]; Wait 3;
        Print "  Connected"]
       ++ [Socket; Bind "" 9000%Z] ++ evs ++ closing evs)
    ∧ datagrams evs = commandSequence ≫= turn
    ∧ capture_starts evs
      = length (filter (λ cmd, cmd = "streamon") commandSequence)
    ∧ (closing evs = [] ↔ "streamon" ∉ commandSequence).
Proof.
  apply (live_run_closes_last_capture demo_world 12 commandSequence false);
    [reflexivity | vm_compute; lia | vm_compute; lia
    | vm_compute; reflexivity].
Defined.

(** X17: in live mode without the capture binary, a queue that holds
    streamon is run up to its first streamon only: after that command's
    exchange and the delay of 5 the start of ffmpeg raises
    FileNotFoundError, which ends the run; the commands after it are never
    sent and no closing step runs. *)
Theorem missing_ffmpeg_stops_at_streamon (w : World) (fuel : nat)
    (before after : list string) (disableNm : bool) (pre : list event) :
  installed w "ffmpeg" = false →
  "streamon" ∉ before →
  size (files w) < fuel →
  length before + 1 ≤ fuel →
  prelude w disableNm false [] = (Ok tt, pre) →
  ∃ evs data pid vidFname,
    run (main w fuel (before ++ "streamon" :: after) disableNm false)
    = (Raise "FileNotFoundError",
       pre ++ [Socket; Bind "" 9000%Z] ++ evs
       ++ exchange "streamon" data
       ++ [Sleep 5; Popen pid (ffmpeg_args vidFname)])
    ∧ datagrams evs = before ≫= turn
    ∧ capture_starts evs = 0.
Proof.
  intros Hff Hnot Hfiles Hfuel Hpre.
  destruct (reserve_name_spec w fuel (pre ++ [Socket; Bind "" 9000%Z]) Hfiles)
    as (n & Hname & _).
  destruct (while_ffmpeg_missing w (vidFname_of n) before after fuel None
              ((pre ++ [Socket; Bind "" 9000%Z]) ++ []) Hff Hnot Hfuel)
    as (blocks & data & pid & Hloop & Hblocks).
  exists (concat blocks), data, pid, (vidFname_of n). split; [|split].
  - apply main_after_prelude; [done|]. unfold session.
    eapply bind_ok; [apply open_socket_live| |reflexivity].
    eapply bind_ok; [exact Hname| |reflexivity].
    apply bind_raise. exact Hloop.
  - by eapply live_blocks_datagrams.
  - rewrite (live_blocks_starts (vidFname_of n) before blocks Hblocks).
    clear -Hnot. induction before as [|cmd before IH]; [done|].
    apply not_elem_of_cons in Hnot as [Hcmd Hnot].
    rewrite filter_cons_False by congruence. by apply IH.
Qed.

Lemma missing_ffmpeg_stops_at_streamon_witness :
  ∃ evs data pid vidFname,
    run (main no_ffmpeg_world 12
           (["command"] ++ "streamon" :: ["takeoff"; "land"]) true false)
    = (Raise "FileNotFoundError",
       [Print "Tello Test Program"] ++ [Socket; Bind "" 9000%Z] ++ evs
       ++ exchange "streamon" data
       ++ [Sleep 5; Popen pid (ffmpeg_args vidFname)])
    ∧ datagrams evs = ["command"] ≫= turn
    ∧ capture_starts evs = 0.
Proof.
  apply (missing_ffmpeg_stops_at_streamon no_ffmpeg_world 12 ["command"]
           ["takeoff"; "land"] true [Print "Tello Test Program"]).
  - reflexivity.
  - apply (bool_decide_unpack _). vm_compute. exact I.
  - vm_compute. lia.
  - vm_compute. lia.
  - vm_compute. reflexivity.
Defined.



(** X19: the counter that the probing loop stops at is at least 1 and at
    most one more than the number of existing files, so the loop tests at
    most that many names. *)
Theorem reserve_count_bounded (w : World) (fuel : nat) (h : list event) :
  size (files w) < fuel →
  ∃ n, reserve_count w fuel h = (Ok n, [])
       ∧ 1 ≤ n ≤ size (files w) + 1.
Proof.
  intros Hfuel.
  destruct (reserve_count_spec w fuel h Hfuel) as (n & Hrun & Hle & _ & Hlow).
  exists n. split; [done|]. split; [done|].
  assert (n - 1 ≤ size (files w)); [|lia].
  apply used_names_bound. intros m Hm. apply Hlow. lia.
Qed.

Lemma reserve_count_bounded_witness :
  ∃ n, reserve_count used_world 4 [] = (Ok n, [])
       ∧ 1 ≤ n ≤ size (files used_world) + 1.
Proof.
  apply (reserve_count_bounded used_world 4 []). vm_compute. lia.
Defined.

(** X20: different counters give different output names. *)
Theorem output_names_distinct (m n : nat) :
  m ≠ n → vidFname_of m ≠ vidFname_of n.
Proof. intros Hne Heq. by apply Hne, (inj vidFname_of). Qed.

Lemma output_names_distinct_witness : vidFname_of 1 ≠ vidFname_of 10.
Proof. apply (output_names_distinct 1 10). lia. Defined.

Section MalformedListing.

Lemma scan_malformed good bad rest (uuid : option string) :
  Forall four_fields good →
  tello_profiles good + (if uuid is Some _ then 1 else 0) ≤ 1 →
  ¬ four_fields bad →
  ∀ h, for_each (good ++ bad :: rest) getWifiUUID_body uuid h
       = (Raise "ValueError", []).
Proof.
  intros Hgood. revert uuid.
  induction Hgood as [|net good Hnet _ IH]; intros uuid Hcount Hbad h.
  - simpl. apply bind_raise.
    pose proof (getWifiUUID_body_cases uuid bad h) as Hbody.
    unfold four_fields in Hbad.
    by destruct (Py.split Py.colon bad) as [|? [|? [|? [|? [|? ?]]]]].
  - rewrite tello_profiles_cons in Hcount.
    pose proof (getWifiUUID_body_cases uuid net h) as Hbody.
    unfold is_tello_profile in Hcount.
    destruct (four_fields_split net Hnet) as (name & nuuid & typ & dev & Hsplit).
    rewrite Hsplit in Hbody, Hcount. simpl.
    destruct (Py.contains "TELLO" name).
    + destruct uuid as [u|]; [simpl in Hcount; lia|].
      eapply bind_ok; [exact Hbody| |done].
      apply IH; [simpl in *; lia|done].
    + eapply bind_ok; [exact Hbody| |done].
      apply IH; [simpl in *; lia|done].
Qed.

End MalformedListing.

(** X21: getWifiUUID raises the ValueError of the unpacking, and prints
    nothing, when it meets a line that does not have four fields before it
    has seen a second profile with TELLO in its name: the lines read so
    far do not matter, nor whether a Tello profile was among them. *)
Theorem getWifiUUID_malformed_line (w : World) (h : list event)
    (good : list string) (bad : string) (rest : list string) :
  installed w "nmcli" = true →
  listing_read w h = good ++ bad :: rest →
  Forall four_fields good →
  tello_profiles good ≤ 1 →
  ¬ four_fields bad →
  getWifiUUID w h = (Raise "ValueError", listing_call h).
Proof.
  intros Hnm Hread Hgood Hcount Hbad.
  rewrite (getWifiUUID_scan w h (Raise "ValueError") []); [|done|].
  { by rewrite app_nil_r. }
  intros h'. rewrite Hread. apply scan_malformed; [done| |done].
  simpl. lia.
Qed.

Lemma getWifiUUID_malformed_line_witness :
  getWifiUUID colon_world [] = (Raise "ValueError", listing_call []).
Proof.
  apply (getWifiUUID_malformed_line colon_world []
           ["TELLO-AB12:uuid-1:802-11-wireless:"]
           "My:Home:uuid-3:802-11-wireless:wlan0" []);
    [reflexivity | vm_compute; reflexivity | vm_compute; repeat constructor
    | vm_compute; lia | vm_compute; lia].
Defined.
